(** * Verification of [chess_engine_evaluator.py]

    A shallow embedding of [ChessEngineEvaluator]: the single-position
    evaluation ([evaluate_position]), the sequence evaluator
    ([evaluate_moves_sequence]), the move comparator ([compare_moves]) and
    the text classification ([_format_evaluation]).

    The chess rules (python-chess [chess.Board], [chess.Move]) and the UCI
    engine ([chess.engine.SimpleEngine]) are external collaborators: they
    are taken as interfaces (type classes), and a small concrete instance
    (the main line of the Ruy Lopez) is provided to run the code on real
    inputs.  The score types of [chess.engine] ([Score], [PovScore]) are
    small enough to be embedded in full. *)

From Stdlib Require Import ZArith QArith Qabs Floats Uint63 Lia.
From stdpp Require Import base strings list gmap pretty.

Local Open Scope Z_scope.

(** ** Python values *)

Module Py.

(** A Python number as callers pass it for [time_limit]: an [int] or a
    [float] (IEEE binary64, the kernel's primitive floats). *)
Inductive num : Type :=
| Int (z : Z)
| Float (f : float).

(** Truth value of an [int]: [bool(z)] is [z != 0]. *)
Definition truthy_int (z : Z) : bool := negb (z =? 0).

(** Truth value of a [float]: [bool(f)] is [f != 0.0] (so [-0.0] is false
    and a NaN is true). *)
Definition truthy_float (f : float) : bool :=
  negb (PrimFloat.eqb f PrimFloat.zero).

Definition truthy_num (x : num) : bool :=
  match x with
  | Int z => truthy_int z
  | Float f => truthy_float f
  end.

(** Truth value of a [str]: the empty string is false. *)
Definition truthy_str (s : string) : bool :=
  match s with
  | EmptyString => false
  | String _ _ => true
  end.

(** Truth value of an [Optional[...]] argument: [None] is false. *)
Definition truthy_opt {A} (truthy : A -> bool) (o : option A) : bool :=
  match o with
  | None => false
  | Some a => truthy a
  end.

(** [a or b] on an optional int [a] and an int [b]. *)
Definition or_int (a : option Z) (b : Z) : Z :=
  match a with
  | Some z => if truthy_int z then z else b
  | None => b
  end.

(** [x > 0] on a number. *)
Definition positive_num (x : num) : bool :=
  match x with
  | Int z => 0 <? z
  | Float f => PrimFloat.ltb PrimFloat.zero f
  end.

(** [float(z)] for an [int] of magnitude below [2^63]; exact below [2^53]. *)
Definition float_of_int (z : Z) : float :=
  match z with
  | Z0 => PrimFloat.zero
  | Zpos _ => PrimFloat.of_uint63 (Uint63.of_Z z)
  | Zneg p => PrimFloat.opp (PrimFloat.of_uint63 (Uint63.of_Z (Zpos p)))
  end.

(** [a / b] on two [int]s: CPython's true division, which for operands
    of magnitude at most [2^53] is the binary64 quotient of the two
    (exactly converted) operands. *)
Definition int_truediv (a b : Z) : float :=
  PrimFloat.div (float_of_int a) (float_of_int b).

(** Exceptions the evaluator raises or lets through. *)
Inductive exn : Type :=
| RuntimeError (msg : string)
| ValueError (msg : string)
| IndexError (msg : string)
| OSError (msg : string).


(** The outcome of a call: a value, or a raised exception. *)
Inductive result (A : Type) : Type :=
| Ok (a : A)
| Raise (e : exn).
Arguments Ok {A} a.
Arguments Raise {A} e.

End Py.

(** ** [_format_evaluation] (lines 252-275) *)

(** Python's [format(x, '+.2f')]: the sign, then the exact binary value of
    [x] rounded to two decimals (ties to even), as CPython's correctly
    rounded float formatting prints it. *)
Definition round_half_even_div (n : Z) (d : Z) : Z :=
  let q := n / d in
  let r := n mod d in
  if 2 * r <? d then q
  else if d <? 2 * r then q + 1
  else if Z.even q then q else q + 1.

Definition two_digits (n : Z) : string :=
  if n <? 10 then "0" +:+ pretty n else pretty n.

Definition format_signed_2f (x : float) : string :=
  match Prim2SF x with
  | S754_nan => "+nan"
  | S754_infinity s => (if s then "-" else "+") +:+ "inf"
  | S754_zero s => (if s then "-" else "+") +:+ "0.00"
  | S754_finite s m e =>
      let hundredths :=
        if 0 <=? e then Z.pos m * 100 * 2 ^ e
        else round_half_even_div (Z.pos m * 100) (2 ^ (- e)) in
      (if s then "-" else "+")
        +:+ pretty (hundredths / 100) +:+ "." +:+ two_digits (hundredths mod 100)
  end.

Definition half : float := 0.5%float.
Definition one_and_half : float := 1.5%float.
Definition three : float := 3.0%float.

(** [pawns > 0] picks the side named in the text. *)
Definition side_of (pawns : float) : string :=
  if PrimFloat.ltb PrimFloat.zero pawns then "white" else "black".

Definition _format_evaluation (centipawns : Z) : string :=
  let pawns := Py.int_truediv centipawns 100 in
  if PrimFloat.ltb (PrimFloat.abs pawns) half then
    "Equal position"
  else if PrimFloat.ltb (PrimFloat.abs pawns) one_and_half then
    let side := side_of pawns in
    "Slight advantage for " +:+ side +:+ " (" +:+ format_signed_2f pawns +:+ ")"
  else if PrimFloat.ltb (PrimFloat.abs pawns) three then
    let side := side_of pawns in
    "Clear advantage for " +:+ side +:+ " (" +:+ format_signed_2f pawns +:+ ")"
  else
    let side := side_of pawns in
    "Winning for " +:+ side +:+ " (" +:+ format_signed_2f pawns +:+ ")".

(** ** [chess.engine] scores

    [chess.engine.Score] and [chess.engine.PovScore] of python-chess, the
    library the evaluator calls.  A UCI engine reports its score relative
    to the side to move; python-chess wraps it as
    [PovScore(relative, turn)] with [turn] the side to move of the analysed
    board, and [PovScore.white()] is
    [relative if turn == WHITE else -relative]. *)

(** [chess.Color]: [chess.WHITE] and [chess.BLACK]. *)
Inductive Color : Type := WHITE | BLACK.

Definition Color_eqb (a b : Color) : bool :=
  match a, b with
  | WHITE, WHITE | BLACK, BLACK => true
  | _, _ => false
  end.

Module Score.

(** [Cp(n)], [Mate(n)] and the singleton [MateGiven]. *)
Inductive t : Type :=
| Cp (cp : Z)
| Mate (moves : Z)
| MateGiven.

(** [__neg__]: [Cp(-n)]; [MateGiven if not moves else Mate(-moves)];
    [-MateGiven] is [Mate(0)]. *)
Definition neg (s : t) : t :=
  match s with
  | Cp n => Cp (- n)
  | Mate n => if n =? 0 then MateGiven else Mate (- n)
  | MateGiven => Mate 0
  end.

Definition is_mate (s : t) : bool :=
  match s with
  | Cp _ => false
  | Mate _ | MateGiven => true
  end.

(** [mate()]: the number of moves to mate, [None] for a centipawn score. *)
Definition mate (s : t) : option Z :=
  match s with
  | Cp _ => None
  | Mate n => Some n
  | MateGiven => Some 0
  end.

(** [score()] without a [mate_score]: the centipawns, [None] for a mate. *)
Definition score (s : t) : option Z :=
  match s with
  | Cp n => Some n
  | Mate _ | MateGiven => None
  end.

End Score.

Module PovScore.

Record t : Type := Make { relative : Score.t; turn : Color }.

(** [pov(color)]. *)
Definition pov (s : t) (color : Color) : Score.t :=
  if Color_eqb (turn s) color then relative s else Score.neg (relative s).

(** [white()]: the score from White's point of view. *)
Definition white (s : t) : Score.t := pov s WHITE.

End PovScore.

(** ** The collaborators *)

(** The chess rules, as the evaluator uses python-chess.  A [Position] is
    a board state up to [chess.Board.__eq__]. *)
Class Rules : Type := {
  Position : Type;
  Move : Type;
  (** [chess.Board(fen)]; [inl msg] is [ValueError(msg)]. *)
  Board_of_fen : string -> string + Position;
  (** [chess.Board()]. *)
  starting : Position;
  (** [board.fen()]. *)
  fen : Position -> string;
  (** [board.turn]. *)
  turn : Position -> Color;
  (** [chess.Move.from_uci(s)]; [inl msg] is [ValueError(msg)]
      ([InvalidMoveError] is a [ValueError]). *)
  from_uci : string -> string + Move;
  (** [move.uci()]. *)
  uci : Move -> string;
  (** [move in board.legal_moves]. *)
  is_legal : Position -> Move -> bool;
  (** The position after [board.push(move)]. *)
  push : Position -> Move -> Position;
  (** [board.san(move)]; [None] when it raises ([ValueError] or
      [AssertionError]). *)
  san : Position -> Move -> option string;
}.

(** What the proofs use of python-chess: a descriptor written by
    [board.fen()] parses back to the same position, and a legal move
    always has an algebraic rendering. *)
Class RulesLaws (R : Rules) : Prop := {
  fen_roundtrip : forall p : Position, Board_of_fen (fen p) = inr p;
  san_legal : forall (p : Position) (m : Move),
      is_legal p m = true -> is_Some (san p m);
}.

(** [chess.engine.Limit(time=..., depth=...)]. *)
Record Limit : Type := {
  limit_time : option Py.num;
  limit_depth : option Z;
}.

Definition Limit_time (t : Py.num) : Limit :=
  {| limit_time := Some t; limit_depth := None |}.
Definition Limit_depth (d : Z) : Limit :=
  {| limit_time := None; limit_depth := Some d |}.

(** The [info] dictionary [engine.analyse] returns, with the three keys
    the evaluator reads; [None] is a missing key. *)
Record Info (Move : Type) : Type := {
  info_depth : option Z;
  info_score : option PovScore.t;
  info_pv : option (list Move);
}.
Arguments info_depth {Move} _.
Arguments info_score {Move} _.
Arguments info_pv {Move} _.

(** The engine process: [Engine] is its state, each analysis request
    answers and moves it to a new state. *)
Class EngineModel (R : Rules) : Type := {
  Engine : Type;
  (** [chess.engine.SimpleEngine.popen_uci(path)]; [None] when the launch
      fails. *)
  popen_uci : string -> option Engine;
  (** [engine.analyse(board, limit)]. *)
  analyse : Engine -> Position -> Limit -> Info Move * Engine;
}.

(** ** The evaluator *)

(** The dictionary [evaluate_position] returns.  A key that may be absent
    is an [option]; [result_score] and [result_mate], when present, hold
    an int or [None]. *)
Record Evaluation : Type := {
  result_fen : string;
  result_depth : option Z;
  result_mate : option (option Z);
  result_score : option (option Z);
  result_evaluation_text : option string;
  result_best_move : option string;
  result_pv : option (list string);
  result_pv_san : option (list string);
}.

(** [d.get(key)] on a key holding an optional int: [None] when the key is
    missing or holds [None]. *)
Definition get {A} (field : option (option A)) : option A :=
  match field with
  | Some v => v
  | None => None
  end.

(** A value of the dictionary [compare_moves] returns: an evaluation, or
    [{'error': msg}]. *)
Inductive Entry : Type :=
| Evaluated (evaluation : Evaluation)
| Error (msg : string).

Section Evaluator.

Context {R : Rules} {E : EngineModel R}.

(** A [chess.Board]: the current position, [move_stack] and the stack of
    earlier states that [pop()] restores. *)
Record Board : Type := {
  position : Position;
  move_stack : list Move;
  _stack : list Position;
}.

(** The board [chess.Board(fen)] builds: no move played yet. *)
Definition Board_new (p : Position) : Board :=
  {| position := p; move_stack := []; _stack := [] |}.

(** [board.push(move)]. *)
Definition Board_push (b : Board) (m : Move) : Board :=
  {| position := push (position b) m;
     move_stack := move_stack b ++ [m];
     _stack := _stack b ++ [position b] |}.

(** [board.pop()]; [None] is the [IndexError] of an empty stack. *)
Definition Board_pop (b : Board) : option Board :=
  match last (_stack b) with
  | Some p =>
      Some {| position := p;
              move_stack := removelast (move_stack b);
              _stack := removelast (_stack b) |}
  | None => None
  end.

(** The fields of [self]. *)
Record ChessEngineEvaluator : Type := {
  self_depth : Z;
  self_engine_path : string;
  self_engine : option Engine;
}.

(** What the calls act on: the evaluator object and the lines printed. *)
Record World : Type := {
  self : ChessEngineEvaluator;
  stdout : list string;
}.

Definition with_engine (w : World) (eng : Engine) : World :=
  {| self := {| self_depth := self_depth (self w);
                self_engine_path := self_engine_path (self w);
                self_engine := Some eng |};
     stdout := stdout w |}.

Definition print (line : string) (w : World) : World :=
  {| self := self w; stdout := stdout w ++ [line] |}.

(** [__init__] with an explicit [engine_path] (lines 23-30): the engine
    is not started. *)
Definition __init__ (engine_path : string) (depth : Z) : ChessEngineEvaluator :=
  {| self_depth := depth; self_engine_path := engine_path; self_engine := None |}.

(** [__enter__] (lines 61-64). *)
Definition __enter__ (w : World) : Py.result unit * World :=
  match popen_uci (self_engine_path (self w)) with
  | Some eng => (Py.Ok tt, with_engine w eng)
  | None => (Py.Raise (Py.OSError "engine launch failed"), w)
  end.

(** Lines 98-102: the analysis limit. *)
Definition analysis_limit (this : ChessEngineEvaluator)
    (depth : option Z) (time_limit : option Py.num) : Limit :=
  match time_limit with
  | Some t =>
      if Py.truthy_num t then Limit_time t
      else Limit_depth (Py.or_int depth (self_depth this))
  | None => Limit_depth (Py.or_int depth (self_depth this))
  end.

(** Lines 116-119: "Convert score to white's perspective". *)
Definition to_white_perspective (board_turn : Color) (score : PovScore.t) : Score.t :=
  if Color_eqb board_turn BLACK then Score.neg (PovScore.white score)
  else PovScore.white score.

(** Lines 140-145: the replay loop on [board_copy] that renders the line
    in SAN; a move whose rendering raises ends the loop ([break]). *)
Fixpoint pv_san_loop (moves : list Move) (board_copy : Board)
    (pv_san : list string) : list string :=
  match moves with
  | [] => pv_san
  | move :: rest =>
      match san (position board_copy) move with
      | Some s => pv_san_loop rest (Board_push board_copy move) (pv_san ++ [s])
      | None => pv_san
      end
  end.

(** Lines 107-148: the result built from the engine's [info].  A
    [PovScore] is always true, so [if score:] tests its presence.  The
    last case of the score match does not arise ([is_mate()] holds exactly
    when [mate()] is an int, and [score()] is an int otherwise, see
    [Score_cases]); [board_copy] starts as a copy of [board]. *)
Definition evaluation_of_info (fen_str : string) (board : Board)
    (info : Info Move) : Evaluation :=
  let result :=
    {| result_fen := fen_str; result_depth := info_depth info;
       result_mate := None; result_score := None;
       result_evaluation_text := None; result_best_move := None;
       result_pv := None; result_pv_san := None |} in
  let result :=
    match info_score info with
    | Some score =>
        let score := to_white_perspective (turn (position board)) score in
        match Score.is_mate score, Score.mate score, Score.score score with
        | true, Some mate_in, _ =>
            {| result_fen := result_fen result;
               result_depth := result_depth result;
               result_mate := Some (Some mate_in);
               result_score := Some None;
               result_evaluation_text :=
                 Some ("Mate in " +:+ pretty (Z.abs mate_in)
                       +:+ (if 0 <? mate_in then " for white" else " for black"));
               result_best_move := None; result_pv := None;
               result_pv_san := None |}
        | false, _, Some cp_score =>
            {| result_fen := result_fen result;
               result_depth := result_depth result;
               result_mate := Some None;
               result_score := Some (Some cp_score);
               result_evaluation_text := Some (_format_evaluation cp_score);
               result_best_move := None; result_pv := None;
               result_pv_san := None |}
        | _, _, _ => result
        end
    | None => result
    end in
  match info_pv info with
  | Some ((first :: _) as pv) =>
      let pv_san := pv_san_loop (take 10 pv) board [] in
      {| result_fen := result_fen result;
         result_depth := result_depth result;
         result_mate := result_mate result;
         result_score := result_score result;
         result_evaluation_text := result_evaluation_text result;
         result_best_move := Some (uci first);
         result_pv := Some (map uci pv);
         result_pv_san := Some pv_san |}
  | _ => result
  end.

(** [evaluate_position] (lines 71-148). *)
Definition evaluate_position (fen_str : string) (depth : option Z)
    (time_limit : option Py.num) (w : World) : Py.result Evaluation * World :=
  match self_engine (self w) with
  | None =>
      (Py.Raise (Py.RuntimeError
         "Engine not started. Use 'with' statement or call start_engine()"), w)
  | Some eng =>
      match Board_of_fen fen_str with
      | inl msg => (Py.Raise (Py.ValueError msg), w)
      | inr p =>
          let board := Board_new p in
          let limit := analysis_limit (self w) depth time_limit in
          let '(info, eng') := analyse eng (position board) limit in
          (Py.Ok (evaluation_of_info fen_str board info), with_engine w eng')
      end
  end.

(** [f"Error processing move {move_uci}: {e}"]. *)
Definition error_line (move_uci msg : string) : string :=
  "Error processing move " +:+ move_uci +:+ ": " +:+ msg.

(** Lines 174-183: the loop of [evaluate_moves_sequence]. *)
Fixpoint sequence_loop (depth : option Z) (moves : list string) (board : Board)
    (evaluations : list Evaluation) (w : World)
  : Py.result (list Evaluation) * World :=
  match moves with
  | [] => (Py.Ok evaluations, w)
  | move_uci :: rest =>
      match from_uci move_uci with
      | inl msg => (Py.Ok evaluations, print (error_line move_uci msg) w)
      | inr move =>
          if negb (is_legal (position board) move) then
            (Py.Ok evaluations,
             print (error_line move_uci ("Illegal move: " +:+ move_uci)) w)
          else
            let board := Board_push board move in
            match evaluate_position (fen (position board)) depth None w with
            | (Py.Ok evaluation, w) =>
                sequence_loop depth rest board (evaluations ++ [evaluation]) w
            | (Py.Raise (Py.ValueError msg), w) =>
                (Py.Ok evaluations, print (error_line move_uci msg) w)
            | (Py.Raise e, w) => (Py.Raise e, w)
            end
      end
  end.

(** Line 167: the starting board. *)
Definition starting_board (starting_fen : option string) : string + Position :=
  match starting_fen with
  | Some s => if Py.truthy_str s then Board_of_fen s else inr starting
  | None => inr starting
  end.

(** [evaluate_moves_sequence] (lines 150-185). *)
Definition evaluate_moves_sequence (moves : list string)
    (starting_fen : option string) (depth : option Z) (w : World)
  : Py.result (list Evaluation) * World :=
  match starting_board starting_fen with
  | inl msg => (Py.Raise (Py.ValueError msg), w)
  | inr p =>
      let board := Board_new p in
      match evaluate_position (fen (position board)) depth None w with
      | (Py.Ok evaluation, w) => sequence_loop depth moves board [evaluation] w
      | (Py.Raise e, w) => (Py.Raise e, w)
      end
  end.

(** Lines 239-242: "Flip score since we're evaluating from opponent's
    perspective". *)
Definition flip_score (evaluation : Evaluation) : Evaluation :=
  {| result_fen := result_fen evaluation;
     result_depth := result_depth evaluation;
     result_mate :=
       match get (result_mate evaluation) with
       | Some mate => Some (Some (- mate))
       | None => result_mate evaluation
       end;
     result_score :=
       match get (result_score evaluation) with
       | Some score => Some (Some (- score))
       | None => result_score evaluation
       end;
     result_evaluation_text := result_evaluation_text evaluation;
     result_best_move := result_best_move evaluation;
     result_pv := result_pv evaluation;
     result_pv_san := result_pv_san evaluation |}.

(** Lines 227-248: the loop of [compare_moves], on its local [board] and
    [results]. *)
Fixpoint compare_loop (depth : option Z) (moves : list string) (board : Board)
    (results : gmap string Entry) (w : World)
  : Py.result (Board * gmap string Entry) * World :=
  match moves with
  | [] => (Py.Ok (board, results), w)
  | move_uci :: rest =>
      match from_uci move_uci with
      | inl msg =>
          compare_loop depth rest board (<[move_uci := Error msg]> results) w
      | inr move =>
          if negb (is_legal (position board) move) then
            compare_loop depth rest board
              (<[move_uci := Error "Illegal move"]> results) w
          else
            let board := Board_push board move in
            match evaluate_position (fen (position board)) depth None w with
            | (Py.Ok evaluation, w) =>
                let evaluation := flip_score evaluation in
                let results := <[move_uci := Evaluated evaluation]> results in
                match Board_pop board with
                | Some board => compare_loop depth rest board results w
                | None => (Py.Raise (Py.IndexError "pop from empty list"), w)
                end
            | (Py.Raise (Py.ValueError msg), w) =>
                compare_loop depth rest board (<[move_uci := Error msg]> results) w
            | (Py.Raise e, w) => (Py.Raise e, w)
            end
      end
  end.

(** [compare_moves] up to its [return]: the local [board] and [results]
    when the loop is over. *)
Definition compare_moves_locals (fen_str : string) (moves : list string)
    (depth : option Z) (w : World)
  : Py.result (Board * gmap string Entry) * World :=
  match Board_of_fen fen_str with
  | inl msg => (Py.Raise (Py.ValueError msg), w)
  | inr p => compare_loop depth moves (Board_new p) ∅ w
  end.

(** [compare_moves] (lines 207-250). *)
Definition compare_moves (fen_str : string) (moves : list string)
    (depth : option Z) (w : World) : Py.result (gmap string Entry) * World :=
  match compare_moves_locals fen_str moves depth w with
  | (Py.Ok (_, results), w) => (Py.Ok results, w)
  | (Py.Raise e, w) => (Py.Raise e, w)
  end.

End Evaluator.

(** ** The rest of the class: discovery, life cycle, [find_best_move] *)

(** [_find_stockfish] (lines 32-59). *)





(** The engine process can be told to quit. *)
Class EngineShutdown {R : Rules} (E : EngineModel R) : Type := {
  (** [engine.quit()]. *)
  quit : Engine -> Engine;
}.

Section MoreEvaluator.

Context {R : Rules} {E : EngineModel R}.


(** [__exit__] (lines 66-69): the engine, if any, is told to quit;
    [self.engine] is left as it is. *)
Definition __exit__ `{!EngineShutdown E} (w : World) : World :=
  match self_engine (self w) with
  | Some eng => with_engine w (quit eng)
  | None => w
  end.

(** [find_best_move] (lines 187-205); [evaluation.get('best_move')] is
    [None] when the key is missing. *)
Definition find_best_move (fen_str : string) (depth : option Z)
    (time_limit : option Py.num) (w : World) : Py.result (option string) * World :=
  match evaluate_position fen_str depth time_limit w with
  | (Py.Ok evaluation, w) => (Py.Ok (result_best_move evaluation), w)
  | (Py.Raise e, w) => (Py.Raise e, w)
  end.

End MoreEvaluator.

(** ** A concrete instance: the main line of the Ruy Lopez

    Twelve positions, from the starting position to the one after
    1.e4 e5 2.Nf3 Nc6 3.Bb5 a6 4.Ba4 Nf6 5.O-O Be7 6.Re1, with their
    descriptors as python-chess writes them.  The only move known to be
    legal in each position is the move of the line, which is all the
    examples below ask of the rules.  The engine answers every request
    with the rest of the line as its best line and a score of thirty
    centipawns in White's favour, reported relative to the side to move. *)

Module RuyLopez.

Definition fens : list string :=
  [ "rnbqkbnr/pppppppp/8/8/8/8/PPPPPPPP/RNBQKBNR w KQkq - 0 1";
    "rnbqkbnr/pppppppp/8/8/4P3/8/PPPP1PPP/RNBQKBNR b KQkq - 0 1";
    "rnbqkbnr/pppp1ppp/8/4p3/4P3/8/PPPP1PPP/RNBQKBNR w KQkq - 0 2";
    "rnbqkbnr/pppp1ppp/8/4p3/4P3/5N2/PPPP1PPP/RNBQKB1R b KQkq - 1 2";
    "r1bqkbnr/pppp1ppp/2n5/4p3/4P3/5N2/PPPP1PPP/RNBQKB1R w KQkq - 2 3";
    "r1bqkbnr/pppp1ppp/2n5/1B2p3/4P3/5N2/PPPP1PPP/RNBQK2R b KQkq - 3 3";
    "r1bqkbnr/1ppp1ppp/p1n5/1B2p3/4P3/5N2/PPPP1PPP/RNBQK2R w KQkq - 0 4";
    "r1bqkbnr/1ppp1ppp/p1n5/4p3/B3P3/5N2/PPPP1PPP/RNBQK2R b KQkq - 1 4";
    "r1bqkb1r/1ppp1ppp/p1n2n2/4p3/B3P3/5N2/PPPP1PPP/RNBQK2R w KQkq - 2 5";
    "r1bqkb1r/1ppp1ppp/p1n2n2/4p3/B3P3/5N2/PPPP1PPP/RNBQ1RK1 b kq - 3 5";
    "r1bqk2r/1pppbppp/p1n2n2/4p3/B3P3/5N2/PPPP1PPP/RNBQ1RK1 w kq - 4 6";
    "r1bqk2r/1pppbppp/p1n2n2/4p3/B3P3/5N2/PPPP1PPP/RNBQR1K1 b kq - 5 6" ].

Definition line : list string :=
  [ "e2e4"; "e7e5"; "g1f3"; "b8c6"; "f1b5"; "a7a6"; "b5a4"; "g8f6";
    "e1g1"; "f8e7"; "f1e1" ].

Definition line_san : list string :=
  [ "e4"; "e5"; "Nf3"; "Nc6"; "Bb5"; "a6"; "Ba4"; "Nf6"; "O-O"; "Be7"; "Re1" ].

(** A position of the line, by the number of plies played. *)
Inductive ply : Type :=
| P0 | P1 | P2 | P3 | P4 | P5 | P6 | P7 | P8 | P9 | P10 | P11.

Definition plies : list ply := [P0; P1; P2; P3; P4; P5; P6; P7; P8; P9; P10; P11].

Definition index (p : ply) : nat :=
  match p with
  | P0 => 0 | P1 => 1 | P2 => 2 | P3 => 3 | P4 => 4 | P5 => 5
  | P6 => 6 | P7 => 7 | P8 => 8 | P9 => 9 | P10 => 10 | P11 => 11
  end%nat.

Definition ply_fen (p : ply) : string := default "" (fens !! index p).

Definition parse_fen (s : string) : string + ply :=
  match filter (fun p => bool_decide (ply_fen p = s)) plies with
  | p :: _ => inr p
  | [] => inl ("invalid fen: " +:+ s)
  end.

Definition parse_uci (s : string) : string + string :=
  if bool_decide (String.length s = 4%nat) || bool_decide (String.length s = 5%nat)
  then inr s
  else inl ("expected uci string to be of length 4 or 5: '" +:+ s +:+ "'").

Definition legal (p : ply) (m : string) : bool :=
  bool_decide (line !! index p = Some m).

Definition next (p : ply) : ply := default p (plies !! S (index p)).

Definition render (p : ply) (m : string) : option string :=
  if legal p m then line_san !! index p else None.

Definition side (p : ply) : Color :=
  if Nat.even (index p) then WHITE else BLACK.

#[export] Instance rules : Rules := {|
  Position := ply;
  Move := string;
  Board_of_fen := parse_fen;
  starting := P0;
  fen := ply_fen;
  turn := side;
  from_uci := parse_uci;
  uci := fun m => m;
  is_legal := legal;
  push := fun p _ => next p;
  san := render;
|}.

(** The score the engine reports: thirty centipawns for White, from the
    point of view of the side to move. *)
Definition reported (p : ply) : PovScore.t :=
  PovScore.Make (Score.Cp (if Nat.even (index p) then 30 else -30)) (side p).

Definition reached_depth (limit : Limit) : option Z :=
  match limit_depth limit with
  | Some d => Some d
  | None => Some 1
  end.

(** The engine's state is the number of requests it has served. *)
#[export] Instance engine : EngineModel rules := {|
  Engine := nat;
  popen_uci := fun _ => Some 0%nat;
  analyse := fun served p limit =>
    ({| info_depth := reached_depth limit;
        info_score := Some (reported p);
        info_pv := Some (drop (index p) line) |}, S served);
|}.

(** A fresh evaluator ([depth=15]) and the same one once started. *)
Definition fresh : World :=
  {| self := __init__ "stockfish" 15; stdout := [] |}.

Definition started : World := with_engine fresh 0%nat.

Definition start_fen : string := ply_fen P0.

End RuyLopez.

(** * Notions used to state the properties *)

(** ** Exact thresholds for the float tests *)

(** For a centipawn value [c] the four float tests of [_format_evaluation]
    agree with the exact comparisons of [c] against 50, 150, 300 and 0.
    This is checked by running the float operations on every [c] of the
    range below (ten thousand pawns either way), which covers every score
    an engine reports. *)

Definition centipawn_bound : Z := 1000000.

Definition float_tests_exact (c : Z) : bool :=
  let pawns := Py.int_truediv c 100 in
  eqb (PrimFloat.ltb (PrimFloat.abs pawns) half) (Z.abs c <? 50)
  && eqb (PrimFloat.ltb (PrimFloat.abs pawns) one_and_half) (Z.abs c <? 150)
  && eqb (PrimFloat.ltb (PrimFloat.abs pawns) three) (Z.abs c <? 300)
  && eqb (PrimFloat.ltb PrimFloat.zero pawns) (0 <? c).

(** One step of the scan: test [i] and [-i], move to [i + 1]. *)
Definition scan_step (st : Z * bool) : Z * bool :=
  let '(i, ok) := st in
  (i + 1, ok && float_tests_exact i && float_tests_exact (- i)).

Definition scan (n : positive) : Z * bool := Pos.iter scan_step (0, true) n.

Section Notions.

Context {R : Rules} {E : EngineModel R}.

(** What an evaluation returns when its analysis request carries [limit]:
    the engine [eng] is asked about the position [p] of [fen_str]. *)
Definition evaluated_with (limit : Limit) (fen_str : string) (p : Position)
    (eng : Engine) (w : World) : Py.result Evaluation * World :=
  (Py.Ok (evaluation_of_info fen_str (Board_new p) (fst (analyse eng p limit))),
   with_engine w (snd (analyse eng p limit))).

(** Replaying [pv] from [p]: the index of the first move that is not legal
    in the position reached. *)
Fixpoint first_illegal (p : Position) (pv : list Move) : option nat :=
  match pv with
  | [] => None
  | m :: rest =>
      if is_legal p m then S <$> first_illegal (push p m) rest else Some 0%nat
  end.

(** Replaying [pv] from [p]: the index of the first move whose algebraic
    rendering raises in the position reached. *)
Fixpoint first_unrendered (p : Position) (pv : list Move) : option nat :=
  match pv with
  | [] => None
  | m :: rest =>
      match san p m with
      | Some _ => S <$> first_unrendered (push p m) rest
      | None => Some 0%nat
      end
  end.

(** The two renderings of a line [pv] analysed at [p], as the
    specification words them: the algebraic list is no longer than the
    long-notation list, which is the whole engine line, and it is strictly
    shorter exactly when a move of the line is illegal in its replay
    state. *)
Definition pv_rendering_as_specified (p : Position) (pv : list Move)
    (evaluation : Evaluation) : Prop :=
  exists long algebraic,
    result_pv evaluation = Some long /\
    result_pv_san evaluation = Some algebraic /\
    long = map uci pv /\
    (length algebraic <= length long)%nat /\
    ((length algebraic < length long)%nat <-> is_Some (first_illegal p pv)).

(** Replaying the move strings from [p]: the index of the first one that
    does not parse or is not legal in the position reached. *)
Fixpoint first_failing_move (p : Position) (moves : list string) : option nat :=
  match moves with
  | [] => None
  | move_uci :: rest =>
      match from_uci move_uci with
      | inl _ => Some 0%nat
      | inr move =>
          if is_legal p move then S <$> first_failing_move (push p move) rest
          else Some 0%nat
      end
  end.

(** A candidate that parses and is legal in [p]. *)
Definition legal_candidate (p : Position) (move_uci : string) : bool :=
  match from_uci move_uci with
  | inl _ => false
  | inr move => is_legal p move
  end.

End Notions.

(** ** Notions for the rest of the evaluator *)

(** The error of a call on an evaluator that is not started (line 94). *)
Definition not_started : Py.exn :=
  Py.RuntimeError "Engine not started. Use 'with' statement or call start_engine()".

(** [f"Mate in {abs(mate_in)}"] and the side it names. *)
Definition mate_text (mate_in : Z) : string :=
  "Mate in " +:+ pretty (Z.abs mate_in)
  +:+ (if 0 <? mate_in then " for white" else " for black").

Section MoreNotions.

Context {R : Rules} {E : EngineModel R}.

(** Replaying [pv] from [p] whatever the renderer says: the rendering of
    each move in the position the moves before it lead to. *)
Fixpoint renderings (p : Position) (pv : list Move) : list (option string) :=
  match pv with
  | [] => []
  | m :: rest => san p m :: renderings (push p m) rest
  end.

(** Replaying the move strings from [p]: the positions reached, up to the
    first string that does not parse or is not legal where it is played. *)
Fixpoint replayed (p : Position) (moves : list string) : list Position :=
  match moves with
  | [] => []
  | move_uci :: rest =>
      match from_uci move_uci with
      | inl _ => []
      | inr move =>
          if is_legal p move then push p move :: replayed (push p move) rest
          else []
      end
  end.

End MoreNotions.

(** * Properties *)

(** ** Classification thresholds *)

Lemma scan_counter n : fst (scan n) = Z.pos n.
Proof.
  unfold scan. induction n as [|n IH] using Pos.peano_ind.
  - reflexivity.
  - rewrite Pos.iter_succ.
    destruct (Pos.iter scan_step (0, true) n) as [i ok]; simpl in *. lia.
Qed.

Lemma scan_sound n :
  snd (scan n) = true ->
  forall c, - Z.pos n < c < Z.pos n -> float_tests_exact c = true.
Proof.
  intros Hok.
  assert (Hinv : let st := scan n in
                 0 <= fst st /\
                 (snd st = true ->
                  forall c, - fst st < c < fst st -> float_tests_exact c = true)).
  { unfold scan. apply Pos.iter_invariant.
    - intros [i ok] [Hi H]; simpl in *. split; [lia|].
      intros Hstep c Hc.
      apply andb_prop in Hstep as [Hstep Hneg].
      apply andb_prop in Hstep as [Hprev Hpos].
      destruct (Z.eq_dec c i) as [->|]; [assumption|].
      destruct (Z.eq_dec c (- i)) as [->|]; [assumption|].
      apply H; [assumption | lia].
    - simpl. split; [lia|]. intros _ c Hc. lia. }
  simpl in Hinv. destruct Hinv as [_ Hinv].
  rewrite scan_counter in Hinv. exact (Hinv Hok).
Qed.

Lemma scan_centipawn_bound : snd (scan (Z.to_pos (centipawn_bound + 1))) = true.
Proof. vm_compute. reflexivity. Qed.

Lemma float_tests_exact_in_range c :
  - centipawn_bound <= c <= centipawn_bound -> float_tests_exact c = true.
Proof.
  intros Hc. apply (scan_sound _ scan_centipawn_bound).
  unfold centipawn_bound in *. simpl in *. lia.
Qed.

(** The texts for a few scores. *)
Example format_examples :
  map _format_evaluation [0; 49; -49; 50; -50; 149; 150; 299; 300; -1234] =
  [ "Equal position"; "Equal position"; "Equal position";
    "Slight advantage for white (+0.50)"; "Slight advantage for black (-0.50)";
    "Slight advantage for white (+1.49)"; "Clear advantage for white (+1.50)";
    "Clear advantage for white (+2.99)"; "Winning for white (+3.00)";
    "Winning for black (-12.34)" ].
Proof. vm_compute. reflexivity. Qed.

(** The code's cascade of float tests, read on the integer [c]. *)
Lemma format_evaluation_exact c :
  - centipawn_bound <= c <= centipawn_bound ->
  _format_evaluation c =
    let side := if 0 <? c then "white" else "black" in
    let shown := " (" +:+ format_signed_2f (Py.int_truediv c 100) +:+ ")" in
    if Z.abs c <? 50 then "Equal position"
    else if Z.abs c <? 150 then "Slight advantage for " +:+ side +:+ shown
    else if Z.abs c <? 300 then "Clear advantage for " +:+ side +:+ shown
    else "Winning for " +:+ side +:+ shown.
Proof.
  intros Hc. pose proof (float_tests_exact_in_range c Hc) as H.
  unfold float_tests_exact in H. cbv zeta in H.
  repeat (apply andb_prop in H as [H ?]).
  repeat match goal with
         | E : eqb _ _ = true |- _ => apply eqb_prop in E
         end.
  unfold _format_evaluation, side_of. cbv zeta.
  repeat match goal with
         | E : PrimFloat.ltb _ _ = _ |- _ => rewrite E; clear E
         end.
  reflexivity.
Qed.

Lemma Qabs_pawns c : Qabs (c # 100) = (Z.abs c # 100)%Q.
Proof. reflexivity. Qed.

(** C3. On absolute pawns [|c| / 100], taken exactly: below 0.5 the text
    is "Equal position"; from 0.5 and below 1.5 it is the slight-advantage
    text; from 1.5 and below 3.0 the clear-advantage text; from 3.0 the
    winning text.  The side named is "white" when [c] is positive and
    "black" otherwise, and the text ends with the signed pawn value. *)
Theorem format_evaluation_thresholds (c : Z) :
  - centipawn_bound <= c <= centipawn_bound ->
  let pawns := (c # 100)%Q in
  let side := if 0 <? c then "white" else "black" in
  let shown := " (" +:+ format_signed_2f (Py.int_truediv c 100) +:+ ")" in
  ((Qabs pawns < 1 # 2)%Q ->
   _format_evaluation c = "Equal position") /\
  ((1 # 2 <= Qabs pawns)%Q -> (Qabs pawns < 3 # 2)%Q ->
   _format_evaluation c = "Slight advantage for " +:+ side +:+ shown) /\
  ((3 # 2 <= Qabs pawns)%Q -> (Qabs pawns < 3 # 1)%Q ->
   _format_evaluation c = "Clear advantage for " +:+ side +:+ shown) /\
  ((3 # 1 <= Qabs pawns)%Q ->
   _format_evaluation c = "Winning for " +:+ side +:+ shown).
Proof.
  intros Hc pawns side shown. subst pawns.
  rewrite (format_evaluation_exact c Hc). cbv zeta. fold side shown.
  rewrite Qabs_pawns. unfold Qlt, Qle. simpl Qnum. simpl Qden.
  repeat split; intros;
    repeat match goal with
           | |- context [?a <? ?b] =>
               lazymatch a with
               | 0 => fail
               | _ => destruct (Z.ltb_spec a b); try lia
               end
           end; reflexivity.
Qed.

(** The boundary values: 50 is a slight advantage for white and 49 is
    equal, 150 is a clear advantage and 149 a slight one, 300 is winning
    and 299 a clear advantage. *)
Lemma format_evaluation_boundaries :
  _format_evaluation 50 = "Slight advantage for white (+0.50)" /\
  _format_evaluation 49 = "Equal position" /\
  _format_evaluation 150 = "Clear advantage for white (+1.50)" /\
  _format_evaluation 149 = "Slight advantage for white (+1.49)" /\
  _format_evaluation 300 = "Winning for white (+3.00)" /\
  _format_evaluation 299 = "Clear advantage for white (+2.99)".
Proof.
  assert (Hin : forall c, (Z.abs c <=? 1000) = true ->
                          - centipawn_bound <= c <= centipawn_bound).
  { intros c H. apply Z.leb_le in H. unfold centipawn_bound. lia. }
  refine (conj _ (conj _ (conj _ (conj _ (conj _ _))))).
  - destruct (format_evaluation_thresholds 50 (Hin 50 eq_refl)) as [_ [H _]].
    apply H; vm_compute; congruence.
  - destruct (format_evaluation_thresholds 49 (Hin 49 eq_refl)) as [H _].
    apply H; vm_compute; congruence.
  - destruct (format_evaluation_thresholds 150 (Hin 150 eq_refl)) as [_ [_ [H _]]].
    apply H; vm_compute; congruence.
  - destruct (format_evaluation_thresholds 149 (Hin 149 eq_refl)) as [_ [H _]].
    apply H; vm_compute; congruence.
  - destruct (format_evaluation_thresholds 300 (Hin 300 eq_refl)) as [_ [_ [_ H]]].
    apply H; vm_compute; congruence.
  - destruct (format_evaluation_thresholds 299 (Hin 299 eq_refl)) as [_ [_ [H _]]].
    apply H; vm_compute; congruence.
Defined.

(** ** The single-position evaluation *)

Section EvaluatePosition.

Context {R : Rules} {E : EngineModel R}.

Lemma evaluate_position_started fen_str depth time_limit w eng p :
  self_engine (self w) = Some eng ->
  Board_of_fen fen_str = inr p ->
  evaluate_position fen_str depth time_limit w =
  evaluated_with (analysis_limit (self w) depth time_limit) fen_str p eng w.
Proof.
  intros Heng Hfen. unfold evaluate_position, evaluated_with.
  rewrite Heng, Hfen. simpl.
  destruct (analyse eng p _) as [info eng']. reflexivity.
Qed.

Lemma evaluate_position_fen `{!RulesLaws R} p depth time_limit w eng :
  self_engine (self w) = Some eng ->
  exists evaluation eng',
    evaluate_position (fen p) depth time_limit w =
    (Py.Ok evaluation, with_engine w eng').
Proof.
  intros Heng.
  rewrite (evaluate_position_started _ _ _ _ _ p Heng (fen_roundtrip p)).
  unfold evaluated_with. eauto.
Qed.

(** C8. With no engine started, [evaluate_position] raises the
    [RuntimeError] "Engine not started" whatever its arguments, and leaves
    the evaluator as it was: the engine is still not started. *)
Theorem evaluate_position_engine_not_started
    (fen_str : string) (depth : option Z) (time_limit : option Py.num)
    (w : World) :
  self_engine (self w) = None ->
  evaluate_position fen_str depth time_limit w =
    (Py.Raise (Py.RuntimeError
       "Engine not started. Use 'with' statement or call start_engine()"), w)
  /\ self_engine (self (snd (evaluate_position fen_str depth time_limit w))) = None.
Proof.
  intros Hnone. unfold evaluate_position. rewrite Hnone. simpl. auto.
Qed.

(** A positive number is true. *)
Lemma positive_num_truthy (t : Py.num) :
  Py.positive_num t = true -> Py.truthy_num t = true.
Proof.
  destruct t as [z|f]; simpl.
  - intros H. apply Z.ltb_lt in H. unfold Py.truthy_int.
    destruct (Z.eqb_spec z 0); [lia | reflexivity].
  - unfold Py.truthy_float.
    rewrite FloatAxioms.ltb_spec, FloatAxioms.eqb_spec.
    change (Prim2SF PrimFloat.zero) with (S754_zero false).
    destruct (Prim2SF f) as [s|s| |s m e]; try destruct s; simpl;
      intros H; try discriminate H; reflexivity.
Qed.

(** C9. A time budget (a positive number of seconds) takes precedence
    over any depth given with it: the analysis request carries the time
    limit, not the depth.  With neither a time budget nor a depth, the
    request carries the evaluator's default depth. *)
Theorem analysis_limit_resolution
    (fen_str : string) (p : Position) (eng : Engine) (w : World)
    (t : Py.num) (depth : option Z) :
  self_engine (self w) = Some eng ->
  Board_of_fen fen_str = inr p ->
  Py.positive_num t = true ->
  (analysis_limit (self w) depth (Some t) = Limit_time t /\
   evaluate_position fen_str depth (Some t) w =
     evaluated_with (Limit_time t) fen_str p eng w) /\
  (analysis_limit (self w) None None = Limit_depth (self_depth (self w)) /\
   evaluate_position fen_str None None w =
     evaluated_with (Limit_depth (self_depth (self w))) fen_str p eng w).
Proof.
  intros Heng Hfen Ht.
  assert (Htime : analysis_limit (self w) depth (Some t) = Limit_time t).
  { unfold analysis_limit. rewrite (positive_num_truthy t Ht). reflexivity. }
  split; split.
  - exact Htime.
  - rewrite (evaluate_position_started _ _ _ _ _ _ Heng Hfen), Htime.
    reflexivity.
  - reflexivity.
  - rewrite (evaluate_position_started _ _ _ _ _ _ Heng Hfen). reflexivity.
Qed.

Lemma evaluate_position_limit fen_str depth depth' time_limit time_limit' w :
  analysis_limit (self w) depth time_limit =
  analysis_limit (self w) depth' time_limit' ->
  evaluate_position fen_str depth time_limit w =
  evaluate_position fen_str depth' time_limit' w.
Proof.
  intros H. unfold evaluate_position. rewrite H. reflexivity.
Qed.

(** C10. The choice goes by the truth value of the arguments: a time
    limit of [0], [0.0] or [-0.0] is handled as no time limit, so the
    request carries a depth; a depth of [0] is handled as no depth, so the
    default depth is used. *)
Theorem falsy_limits_fall_back
    (fen_str : string) (depth : option Z) (time_limit : option Py.num)
    (w : World) :
  (forall zero : Py.num,
      zero = Py.Int 0 \/ zero = Py.Float 0%float \/ zero = Py.Float (-0)%float ->
      analysis_limit (self w) depth (Some zero) =
        Limit_depth (Py.or_int depth (self_depth (self w))) /\
      evaluate_position fen_str depth (Some zero) w =
        evaluate_position fen_str depth None w) /\
  analysis_limit (self w) (Some 0) None = Limit_depth (self_depth (self w)) /\
  evaluate_position fen_str (Some 0) time_limit w =
    evaluate_position fen_str None time_limit w /\
  analysis_limit (self w) depth time_limit =
    match time_limit with
    | Some t =>
        if Py.truthy_num t then Limit_time t
        else Limit_depth (if Py.truthy_opt Py.truthy_int depth
                          then default 0 depth else self_depth (self w))
    | None =>
        Limit_depth (if Py.truthy_opt Py.truthy_int depth
                     then default 0 depth else self_depth (self w))
    end.
Proof.
  assert (Hor : forall d this,
             Py.or_int d this =
             if Py.truthy_opt Py.truthy_int d then default 0 d else this).
  { intros [z|] this; simpl; [destruct (Py.truthy_int z)|]; reflexivity. }
  split; [|split; [|split]].
  - intros zero Hzero.
    assert (Hlimit : analysis_limit (self w) depth (Some zero) =
                     analysis_limit (self w) depth None).
    { destruct Hzero as [->|[->| ->]]; reflexivity. }
    split; [exact Hlimit|]. apply evaluate_position_limit, Hlimit.
  - reflexivity.
  - apply evaluate_position_limit.
    destruct time_limit as [t|]; reflexivity.
  - unfold analysis_limit. rewrite Hor. reflexivity.
Qed.

(** *** The perspective of the stored score *)

Lemma Score_cases (s : Score.t) :
  (Score.is_mate s = true /\ is_Some (Score.mate s)) \/
  (Score.is_mate s = false /\ is_Some (Score.score s)).
Proof. destruct s; simpl; eauto. Qed.

Lemma Score_neg_involutive (s : Score.t) : Score.neg (Score.neg s) = s.
Proof.
  destruct s as [n|n|]; simpl.
  - f_equal. lia.
  - destruct (Z.eqb_spec n 0) as [->|Hn]; simpl; [reflexivity|].
    destruct (Z.eqb_spec (- n) 0); [lia|]. f_equal. lia.
  - reflexivity.
Qed.

(** The engine reports [raw] relative to the side to move [side], which
    is the turn of the analysed board: whichever the side, the code's
    conversion returns [raw] itself. *)
Lemma to_white_perspective_relative (side : Color) (raw : Score.t) :
  to_white_perspective side (PovScore.Make raw side) = raw.
Proof.
  destruct side; unfold to_white_perspective, PovScore.white, PovScore.pov;
    simpl; [reflexivity | apply Score_neg_involutive].
Qed.

(** The stored centipawn score is the engine's side-to-move value. *)
Lemma stored_score_relative fen_str board info (raw : Z) :
  info_score info =
    Some (PovScore.Make (Score.Cp raw) (turn (position board))) ->
  result_score (evaluation_of_info fen_str board info) = Some (Some raw) /\
  result_mate (evaluation_of_info fen_str board info) = Some None.
Proof.
  intros Hscore. unfold evaluation_of_info. rewrite Hscore.
  rewrite to_white_perspective_relative. simpl.
  destruct (info_pv info) as [[|first rest]|]; auto.
Qed.

End EvaluatePosition.

(** ** The principal variation *)

Section PrincipalVariation.

Context {R : Rules} {E : EngineModel R}.

Lemma first_unrendered_lt p pv k :
  first_unrendered p pv = Some k -> (k < length pv)%nat.
Proof.
  revert p k. induction pv as [|m rest IH]; intros p k; simpl; [discriminate|].
  destruct (san p m); [|intros [= <-]; lia].
  destruct (first_unrendered (push p m) rest) as [j|] eqn:Hj; simpl; [|discriminate].
  intros [= <-]. apply IH in Hj. lia.
Qed.

Lemma pv_san_loop_length moves board pv_san :
  length (pv_san_loop moves board pv_san) =
  (length pv_san +
   match first_unrendered (position board) moves with
   | Some k => k
   | None => length moves
   end)%nat.
Proof.
  revert board pv_san.
  induction moves as [|m rest IH]; intros board pv_san; simpl; [lia|].
  destruct (san (position board) m) as [s|]; [|lia].
  rewrite IH, length_app. simpl.
  destruct (first_unrendered (push (position board) m) rest); simpl; lia.
Qed.

Lemma first_unrendered_legal `{!RulesLaws R} p pv :
  first_illegal p pv = None -> first_unrendered p pv = None.
Proof.
  revert p. induction pv as [|m rest IH]; intros p; simpl; [reflexivity|].
  destruct (is_legal p m) eqn:Hlegal; [|discriminate].
  destruct (san_legal p m Hlegal) as [s ->].
  destruct (first_illegal (push p m) rest) eqn:Hrest; simpl; [discriminate|].
  intros _. rewrite (IH _ Hrest). reflexivity.
Qed.

(** C2, as the code has it.  For a non-empty engine line [pv]: the
    long-notation list is the whole line; the algebraic list renders the
    first ten moves only and stops at the first one whose rendering raises
    in its replay state, so it is never longer than the long-notation
    list, and it is strictly shorter exactly when such a move exists among
    the first ten or the line has more than ten moves.  A legal move
    always renders: with the first ten moves legal in their replay
    states, the algebraic list has [min 10 (length pv)] entries. *)
Theorem pv_rendering `{!RulesLaws R}
    (fen_str : string) (board : Board) (info : Info Move) (pv : list Move) :
  info_pv info = Some pv ->
  pv <> [] ->
  exists algebraic,
    result_pv (evaluation_of_info fen_str board info) = Some (map uci pv) /\
    result_pv_san (evaluation_of_info fen_str board info) = Some algebraic /\
    (length algebraic <= length (map uci pv))%nat /\
    length algebraic =
      match first_unrendered (position board) (take 10 pv) with
      | Some k => k
      | None => Nat.min 10 (length pv)
      end /\
    ((length algebraic < length (map uci pv))%nat <->
     is_Some (first_unrendered (position board) (take 10 pv))
     \/ (10 < length pv)%nat) /\
    (first_illegal (position board) (take 10 pv) = None ->
     length algebraic = Nat.min 10 (length pv)).
Proof.
  intros Hpv Hne. destruct pv as [|first rest]; [congruence|].
  exists (pv_san_loop (take 10 (first :: rest)) board []).
  assert (Hlen : length (pv_san_loop (take 10 (first :: rest)) board []) =
                 match first_unrendered (position board) (take 10 (first :: rest)) with
                 | Some k => k
                 | None => Nat.min 10 (length (first :: rest))
                 end).
  { rewrite pv_san_loop_length, length_take. simpl length at 1.
    destruct (first_unrendered _ _); lia. }
  assert (Hbound : forall k,
             first_unrendered (position board) (take 10 (first :: rest)) = Some k ->
             (k < Nat.min 10 (length (first :: rest)))%nat).
  { intros k Hk. apply first_unrendered_lt in Hk.
    rewrite length_take in Hk. exact Hk. }
  unfold evaluation_of_info. rewrite Hpv.
  split; [reflexivity|]. split; [reflexivity|].
  rewrite length_map, Hlen.
  destruct (first_unrendered (position board) (take 10 (first :: rest)))
    as [k|] eqn:Hk.
  - specialize (Hbound k eq_refl).
    split; [lia|]. split; [reflexivity|]. split.
    + split; [intros _; left; eauto | lia].
    + intros Hlegal. apply first_unrendered_legal in Hlegal. congruence.
  - split; [lia|]. split; [reflexivity|]. split; [|reflexivity].
    split; [intros H; right; lia|].
    intros [[k Hsome]|H]; [discriminate | lia].
Qed.

End PrincipalVariation.

(** ** The sequence evaluator *)

Section SequenceEvaluator.

Context {R : Rules} {E : EngineModel R} `{!RulesLaws R}.

Lemma evaluation_of_info_fen fen_str board info :
  result_fen (evaluation_of_info fen_str board info) = fen_str.
Proof. unfold evaluation_of_info. repeat case_match; reflexivity. Qed.

Lemma with_engine_started w eng : self_engine (self (with_engine w eng)) = Some eng.
Proof. reflexivity. Qed.

Lemma sequence_loop_length depth moves board evaluations w eng :
  self_engine (self w) = Some eng ->
  exists more w',
    sequence_loop depth moves board evaluations w =
      (Py.Ok (evaluations ++ more), w') /\
    length more =
      match first_failing_move (position board) moves with
      | Some k => k
      | None => length moves
      end.
Proof.
  revert board evaluations w eng.
  induction moves as [|move_uci rest IH]; intros board evaluations w eng Heng; simpl.
  - exists [], w. rewrite app_nil_r. auto.
  - destruct (from_uci move_uci) as [msg|move].
    { eexists [], _. rewrite app_nil_r. eauto. }
    destruct (is_legal (position board) move) eqn:Hlegal; simpl.
    2:{ eexists [], _. rewrite app_nil_r. eauto. }
    destruct (evaluate_position_fen (push (position board) move) depth None w eng Heng)
      as (evaluation & eng' & ->).
    destruct (IH (Board_push board move) (evaluations ++ [evaluation])
                 (with_engine w eng') eng' (with_engine_started _ _))
      as (more & w' & -> & Hlen).
    exists (evaluation :: more), w'. rewrite <- app_assoc. simpl.
    split; [reflexivity|]. simpl in Hlen. rewrite Hlen.
    destruct (first_failing_move (push (position board) move) rest); reflexivity.
Qed.

(** C4. With the engine started and a starting position that parses, the
    call returns a list (it does not raise) whose first element is the
    evaluation of the starting position; the list has [N + 1] evaluations
    when each of the [N] moves parses and is legal in its replay state,
    and [k + 1] when the first move that does not is at index [k]. *)
Theorem evaluate_moves_sequence_length
    (moves : list string) (starting_fen : option string) (depth : option Z)
    (w : World) (eng : Engine) (p : Position) :
  self_engine (self w) = Some eng ->
  starting_board starting_fen = inr p ->
  exists first rest w',
    evaluate_moves_sequence moves starting_fen depth w =
      (Py.Ok (first :: rest), w') /\
    fst (evaluate_position (fen p) depth None w) = Py.Ok first /\
    result_fen first = fen p /\
    length (first :: rest) =
      match first_failing_move p moves with
      | Some k => S k
      | None => S (length moves)
      end.
Proof.
  intros Heng Hstart. unfold evaluate_moves_sequence. rewrite Hstart. simpl.
  destruct (evaluate_position_fen p depth None w eng Heng)
    as (evaluation & eng' & Heval).
  rewrite Heval.
  destruct (sequence_loop_length depth moves (Board_new p) [evaluation]
              (with_engine w eng') eng' (with_engine_started _ _))
    as (more & w' & -> & Hlen).
  exists evaluation, more, w'. simpl in *.
  split; [reflexivity|]. split; [reflexivity|]. split.
  - rewrite (evaluate_position_started _ _ _ _ _ p Heng (fen_roundtrip p)) in Heval.
    unfold evaluated_with in Heval. injection Heval as <- _.
    apply evaluation_of_info_fen.
  - rewrite Hlen. destruct (first_failing_move p moves); reflexivity.
Qed.

End SequenceEvaluator.

(** ** The move comparator *)

Section MoveComparator.

Context {R : Rules} {E : EngineModel R} `{!RulesLaws R}.

Lemma Board_pop_push (board : Board) (move : Move) :
  Board_pop (Board_push board move) = Some board.
Proof.
  destruct board as [p moves states]. unfold Board_pop, Board_push. simpl.
  rewrite last_snoc, !removelast_last. reflexivity.
Qed.

(** One candidate: what the loop does with it before going on with the
    others. *)
Lemma compare_loop_step depth move_uci rest board results w :
  compare_loop depth (move_uci :: rest) board results w =
  match from_uci move_uci with
  | inl msg => compare_loop depth rest board (<[move_uci := Error msg]> results) w
  | inr move =>
      if is_legal (position board) move then
        match self_engine (self w) with
        | None =>
            (Py.Raise (Py.RuntimeError
               "Engine not started. Use 'with' statement or call start_engine()"), w)
        | Some eng =>
            match evaluate_position (fen (push (position board) move)) depth None w with
            | (Py.Ok evaluation, w') =>
                compare_loop depth rest board
                  (<[move_uci := Evaluated (flip_score evaluation)]> results) w'
            | (Py.Raise e, w') => (Py.Raise e, w')
            end
        end
      else
        compare_loop depth rest board (<[move_uci := Error "Illegal move"]> results) w
  end.
Proof.
  simpl. destruct (from_uci move_uci) as [msg|move]; [reflexivity|].
  destruct (is_legal (position board) move); simpl; [|reflexivity].
  destruct (self_engine (self w)) as [eng|] eqn:Heng.
  - destruct (evaluate_position_fen (push (position board) move) depth None w eng Heng)
      as (evaluation & eng' & ->).
    rewrite Board_pop_push. reflexivity.
  - unfold evaluate_position. rewrite Heng. reflexivity.
Qed.

Lemma compare_loop_restores depth moves board results w :
  match compare_loop depth moves board results w with
  | (Py.Ok (board', _), _) => board' = board
  | (Py.Raise e, _) =>
      self_engine (self w) = None /\
      e = Py.RuntimeError
            "Engine not started. Use 'with' statement or call start_engine()"
  end.
Proof.
  revert results w.
  induction moves as [|move_uci rest IH]; intros results w; [reflexivity|].
  rewrite compare_loop_step.
  destruct (from_uci move_uci) as [msg|move]; [apply IH|].
  destruct (is_legal (position board) move); [|apply IH].
  destruct (self_engine (self w)) as [eng|] eqn:Heng; [|auto].
  destruct (evaluate_position_fen (push (position board) move) depth None w eng Heng)
    as (evaluation & eng' & ->).
  specialize (IH (<[move_uci := Evaluated (flip_score evaluation)]> results)
                 (with_engine w eng')).
  destruct (compare_loop depth rest board _ (with_engine w eng')) as [[[b r]|e] w'];
    [exact IH|].
  destruct IH as [Hnone _]. discriminate Hnone.
Qed.

(** C5. When [compare_moves] has gone through its candidates, its board
    is the board it parsed from [fen_str], move stack included, and so has
    the same descriptor.  The call as a whole can fail in one way only:
    the engine was not started and a legal candidate asked for an
    evaluation. *)
Theorem compare_moves_restores_board
    (fen_str : string) (moves : list string) (depth : option Z) (w : World)
    (p : Position) :
  Board_of_fen fen_str = inr p ->
  match compare_moves_locals fen_str moves depth w with
  | (Py.Ok (board, _), _) =>
      board = Board_new p /\ fen (position board) = fen p
  | (Py.Raise e, _) =>
      self_engine (self w) = None /\
      e = Py.RuntimeError
            "Engine not started. Use 'with' statement or call start_engine()"
  end.
Proof.
  intros Hfen. unfold compare_moves_locals. rewrite Hfen.
  pose proof (compare_loop_restores depth moves (Board_new p) ∅ w) as H.
  destruct (compare_loop depth moves (Board_new p) ∅ w) as [[[b r]|e] w'].
  - subst b. auto.
  - exact H.
Qed.

End MoveComparator.

Section ComparatorResults.

Context {R : Rules} {E : EngineModel R} `{!RulesLaws R}.

Lemma compare_loop_app depth before after board results w :
  compare_loop depth (before ++ after) board results w =
  match compare_loop depth before board results w with
  | (Py.Ok (board', results'), w') => compare_loop depth after board' results' w'
  | (Py.Raise e, w') => (Py.Raise e, w')
  end.
Proof.
  revert board results w.
  induction before as [|move_uci rest IH]; intros board results w; [reflexivity|].
  rewrite <- app_comm_cons, !compare_loop_step.
  destruct (from_uci move_uci) as [msg|move]; [apply IH|].
  destruct (is_legal (position board) move); [|apply IH].
  destruct (self_engine (self w)); [|reflexivity].
  destruct (evaluate_position _ depth None w) as [[evaluation|err] w'];
    [apply IH | reflexivity].
Qed.

(** With the engine started the loop goes through all its candidates. *)
Lemma compare_loop_started depth moves board results w eng :
  self_engine (self w) = Some eng ->
  exists results' w' eng',
    compare_loop depth moves board results w = (Py.Ok (board, results'), w') /\
    self_engine (self w') = Some eng'.
Proof.
  revert results w eng.
  induction moves as [|move_uci rest IH]; intros results w eng Heng.
  - exists results, w, eng. auto.
  - rewrite compare_loop_step.
    destruct (from_uci move_uci) as [msg|move]; [eapply IH, Heng|].
    destruct (is_legal (position board) move); [|eapply IH, Heng].
    rewrite Heng.
    destruct (evaluate_position_fen (push (position board) move) depth None w eng Heng)
      as (evaluation & eng' & ->).
    eapply IH. reflexivity.
Qed.

Lemma compare_moves_returns fen_str p moves depth w eng :
  Board_of_fen fen_str = inr p ->
  self_engine (self w) = Some eng ->
  exists results w', compare_moves fen_str moves depth w = (Py.Ok results, w').
Proof.
  intros Hfen Heng. unfold compare_moves, compare_moves_locals. rewrite Hfen.
  destruct (compare_loop_started depth moves (Board_new p) ∅ w eng Heng)
    as (results & w' & eng' & -> & _).
  eauto.
Qed.

(** A key that is not among the candidates keeps its value. *)
Lemma compare_loop_other_key depth moves board results w board' results' w'
    (key : string) :
  key ∉ moves ->
  compare_loop depth moves board results w = (Py.Ok (board', results'), w') ->
  results' !! key = results !! key.
Proof.
  revert results w.
  induction moves as [|move_uci rest IH]; intros results w Hkey.
  - intros [= _ <- _]. reflexivity.
  - apply not_elem_of_cons in Hkey as [Hne Hrest].
    rewrite compare_loop_step.
    assert (Hins : forall entry results'' w'',
               compare_loop depth rest board (<[move_uci := entry]> results'') w'' =
                 (Py.Ok (board', results'), w') ->
               results' !! key = results'' !! key).
    { intros entry results'' w'' Hloop.
      rewrite (IH _ _ Hrest Hloop). apply lookup_insert_ne. congruence. }
    destruct (from_uci move_uci) as [msg|move]; [apply Hins|].
    destruct (is_legal (position board) move); [|apply Hins].
    destruct (self_engine (self w)); [|discriminate].
    destruct (evaluate_position _ depth None w) as [[evaluation|err] w''];
      [apply Hins | discriminate].
Qed.

Lemma flip_score_negates (evaluation : Evaluation) :
  get (result_score (flip_score evaluation)) = Z.opp <$> get (result_score evaluation) /\
  get (result_mate (flip_score evaluation)) = Z.opp <$> get (result_mate evaluation).
Proof.
  destruct evaluation as [f d [[mate|]|] [[score|]|] text best pv pv_san];
    split; reflexivity.
Qed.

(** C6. A candidate [M] that parses to a move legal in the origin
    position [p], taken at its last occurrence in the list: the comparator
    evaluates the position reached by that move, and what it records for
    [M] is that evaluation with its score and its mate distance negated
    (a value that is [None] stays [None]). *)
Theorem compare_moves_negates
    (fen_str : string) (p : Position) (before after : list string)
    (M : string) (move : Move) (depth : option Z) (w : World) (eng : Engine) :
  Board_of_fen fen_str = inr p ->
  self_engine (self w) = Some eng ->
  from_uci M = inr move ->
  is_legal p move = true ->
  M ∉ after ->
  exists evaluation w2 results w3,
    evaluate_position (fen (push p move)) depth None
      (snd (compare_moves fen_str before depth w)) = (Py.Ok evaluation, w2) /\
    compare_moves fen_str (before ++ M :: after) depth w = (Py.Ok results, w3) /\
    results !! M = Some (Evaluated (flip_score evaluation)) /\
    get (result_score (flip_score evaluation)) =
      Z.opp <$> get (result_score evaluation) /\
    get (result_mate (flip_score evaluation)) =
      Z.opp <$> get (result_mate evaluation).
Proof.
  intros Hfen Heng Hmove Hlegal Hafter.
  unfold compare_moves, compare_moves_locals. rewrite Hfen.
  rewrite compare_loop_app.
  destruct (compare_loop_started depth before (Board_new p) ∅ w eng Heng)
    as (results1 & w1 & eng1 & -> & Heng1).
  simpl snd.
  rewrite compare_loop_step, Hmove. simpl position. rewrite Hlegal, Heng1.
  destruct (evaluate_position_fen (push p move) depth None w1 eng1 Heng1)
    as (evaluation & eng2 & ->).
  destruct (compare_loop_started depth after (Board_new p)
              (<[M := Evaluated (flip_score evaluation)]> results1)
              (with_engine w1 eng2) eng2 eq_refl)
    as (results & w3 & eng3 & Hloop & _).
  rewrite Hloop.
  exists evaluation, (with_engine w1 eng2), results, w3.
  split; [reflexivity|]. split; [reflexivity|]. split.
  - rewrite (compare_loop_other_key _ _ _ _ _ _ _ _ M Hafter Hloop).
    apply lookup_insert_eq.
  - apply flip_score_negates.
Qed.

(** Every illegal or unparseable candidate ends up with its error
    marker. *)
Lemma compare_loop_errors depth moves board results w board' results' w'
    (candidate : string) :
  compare_loop depth moves board results w = (Py.Ok (board', results'), w') ->
  candidate ∈ moves ->
  (forall move, from_uci candidate = inr move ->
                is_legal (position board) move = false ->
                results' !! candidate = Some (Error "Illegal move")) /\
  (forall msg, from_uci candidate = inl msg ->
               results' !! candidate = Some (Error msg)).
Proof.
  revert results w.
  induction moves as [|move_uci rest IH]; intros results w Hloop Hin.
  - apply elem_of_nil in Hin. contradiction.
  - rewrite compare_loop_step in Hloop.
    destruct (decide (candidate ∈ rest)) as [Hrest|Hrest].
    + destruct (from_uci move_uci) as [msg|move]; [eapply IH; eassumption|].
      destruct (is_legal (position board) move); [|eapply IH; eassumption].
      destruct (self_engine (self w)); [|discriminate].
      destruct (evaluate_position _ depth None w) as [[evaluation|err] w''];
        [eapply IH; eassumption | discriminate].
    + apply elem_of_cons in Hin as [->|Hin]; [|contradiction].
      split.
      * intros move Hmove Hillegal. rewrite Hmove, Hillegal in Hloop.
        rewrite (compare_loop_other_key _ _ _ _ _ _ _ _ _ Hrest Hloop).
        apply lookup_insert_eq.
      * intros msg Hmsg. rewrite Hmsg in Hloop.
        rewrite (compare_loop_other_key _ _ _ _ _ _ _ _ _ Hrest Hloop).
        apply lookup_insert_eq.
Qed.

(** The loop on all candidates against the loop on the legal ones only:
    same outcome, same world, same entries for the legal candidates. *)
Lemma compare_loop_legal_only depth moves board results1 results2 w :
  (forall c, legal_candidate (position board) c = true ->
             results1 !! c = results2 !! c) ->
  match compare_loop depth moves board results1 w,
        compare_loop depth (List.filter (legal_candidate (position board)) moves)
          board results2 w with
  | (Py.Ok (_, all), w1), (Py.Ok (_, legal), w2) =>
      w1 = w2 /\
      forall c, legal_candidate (position board) c = true -> all !! c = legal !! c
  | (Py.Raise e1, w1), (Py.Raise e2, w2) => e1 = e2 /\ w1 = w2
  | _, _ => False
  end.
Proof.
  revert results1 results2 w.
  induction moves as [|move_uci rest IH]; intros results1 results2 w Hagree.
  - simpl. auto.
  - assert (Hskip : forall msg,
               legal_candidate (position board) move_uci = false ->
               forall c, legal_candidate (position board) c = true ->
                         <[move_uci := Error msg]> results1 !! c = results2 !! c).
    { intros msg Hbad c Hc. rewrite lookup_insert_ne; [auto | congruence]. }
    simpl List.filter. rewrite compare_loop_step.
    destruct (legal_candidate (position board) move_uci) eqn:Hcand;
      unfold legal_candidate in Hcand;
      destruct (from_uci move_uci) as [msg|move] eqn:Hparse; try discriminate Hcand.
    2:{ apply IH, Hskip. reflexivity. }
    2:{ rewrite Hcand. apply IH, Hskip. reflexivity. }
    rewrite compare_loop_step, Hparse, Hcand.
    destruct (self_engine (self w)); [|auto].
    destruct (evaluate_position _ depth None w) as [[evaluation|err] w'']; [|auto].
    apply IH. intros c Hc.
    destruct (decide (move_uci = c)) as [->|Hne].
    + rewrite !lookup_insert_eq. reflexivity.
    + rewrite !lookup_insert_ne by assumption. auto.
Qed.

(** C7. In what [compare_moves] returns, a candidate that parses but is
    not legal in the origin position has the marker
    [{'error': 'Illegal move'}], and a candidate that does not parse has
    [{'error': msg}] with the parser's message.  Such candidates change
    nothing else: with or without them in the list the call ends the same
    way, raising the same exception or returning the same entries for the
    legal candidates, in the same world.  A list with no legal candidate
    always returns. *)
Theorem compare_moves_error_markers
    (fen_str : string) (p : Position) (moves : list string)
    (depth : option Z) (w : World) :
  Board_of_fen fen_str = inr p ->
  (forall results w',
      compare_moves fen_str moves depth w = (Py.Ok results, w') ->
      forall candidate, candidate ∈ moves ->
        (forall move, from_uci candidate = inr move -> is_legal p move = false ->
                      results !! candidate = Some (Error "Illegal move")) /\
        (forall msg, from_uci candidate = inl msg ->
                     results !! candidate = Some (Error msg))) /\
  match compare_moves fen_str moves depth w,
        compare_moves fen_str (List.filter (legal_candidate p) moves) depth w with
  | (Py.Ok all, w1), (Py.Ok legal, w2) =>
      w1 = w2 /\
      forall c, legal_candidate p c = true -> all !! c = legal !! c
  | (Py.Raise e1, w1), (Py.Raise e2, w2) => e1 = e2 /\ w1 = w2
  | _, _ => False
  end /\
  (List.filter (legal_candidate p) moves = [] ->
   exists results, compare_moves fen_str moves depth w = (Py.Ok results, w)).
Proof.
  intros Hfen.
  pose proof (compare_loop_legal_only depth moves (Board_new p) ∅ ∅ w
                (fun _ _ => eq_refl)) as Hlegal.
  simpl position in Hlegal.
  unfold compare_moves, compare_moves_locals. rewrite Hfen.
  split; [|split].
  - intros results w' Hcall candidate Hin.
    destruct (compare_loop depth moves (Board_new p) ∅ w)
      as [[[board' results']|e] w''] eqn:Hloop; [|discriminate].
    injection Hcall as <- <-.
    exact (compare_loop_errors _ _ _ _ _ _ _ _ _ Hloop Hin).
  - destruct (compare_loop depth moves (Board_new p) ∅ w) as [[[b1 r1]|e1] w1],
             (compare_loop depth (List.filter (legal_candidate p) moves)
                (Board_new p) ∅ w) as [[[b2 r2]|e2] w2]; exact Hlegal.
  - intros Hnone. rewrite Hnone in Hlegal. simpl in Hlegal.
    destruct (compare_loop depth moves (Board_new p) ∅ w) as [[[b1 r1]|e1] w1];
      [|contradiction].
    destruct Hlegal as [-> _]. eauto.
Qed.

End ComparatorResults.

(** ** Engine discovery and the life cycle *)


Section LifeCycle.

Context {R : Rules} {E : EngineModel R}.


(** X3. On an evaluator that is not started, [find_best_move] raises the
    "Engine not started" error for every argument, and
    [evaluate_moves_sequence] raises it for every move list, unless the
    starting descriptor does not parse, which raises the [ValueError]
    first.  Nothing is printed and the evaluator is unchanged. *)
Theorem not_started_calls_raise
    (moves : list string) (starting_fen : option string) (fen_str : string)
    (depth : option Z) (time_limit : option Py.num) (w : World) :
  self_engine (self w) = None ->
  find_best_move fen_str depth time_limit w = (Py.Raise not_started, w) /\
  evaluate_moves_sequence moves starting_fen depth w =
    (Py.Raise match starting_board starting_fen with
              | inl msg => Py.ValueError msg
              | inr _ => not_started
              end, w).
Proof.
  intros Hnone. split.
  - unfold find_best_move, evaluate_position. rewrite Hnone. reflexivity.
  - unfold evaluate_moves_sequence.
    destruct (starting_board starting_fen) as [msg|p]; [reflexivity|].
    unfold evaluate_position. rewrite Hnone. reflexivity.
Qed.

Lemma compare_loop_not_started depth moves board results w :
  self_engine (self w) = None ->
  if existsb (legal_candidate (position board)) moves then
    compare_loop depth moves board results w = (Py.Raise not_started, w)
  else
    exists results',
      compare_loop depth moves board results w = (Py.Ok (board, results'), w) /\
      dom results' = dom results ∪ list_to_set moves.
Proof.
  intros Hnone. revert results.
  induction moves as [|move_uci rest IH]; intros results.
  - simpl. exists results. split; [reflexivity | set_solver].
  - assert (Hskip : forall entry,
               if existsb (legal_candidate (position board)) rest then
                 compare_loop depth rest board (<[move_uci := entry]> results) w =
                   (Py.Raise not_started, w)
               else
                 exists results',
                   compare_loop depth rest board (<[move_uci := entry]> results) w =
                     (Py.Ok (board, results'), w) /\
                   dom results' = dom results ∪ list_to_set (move_uci :: rest)).
    { intros entry. specialize (IH (<[move_uci := entry]> results)).
      destruct (existsb _ rest); [exact IH|].
      destruct IH as (results' & Hloop & Hdom).
      exists results'. split; [exact Hloop|].
      rewrite Hdom, dom_insert_L. set_solver. }
    simpl. unfold legal_candidate at 1.
    destruct (from_uci move_uci) as [msg|move]; simpl; [apply Hskip|].
    destruct (is_legal (position board) move); simpl; [|apply Hskip].
    unfold evaluate_position. rewrite Hnone. reflexivity.
Qed.

(** X4. [compare_moves] on an evaluator that is not started, with a
    descriptor that parses: it raises the "Engine not started" error
    exactly when some candidate is legal; when none is, it returns, with
    an entry for each candidate.  Either way the evaluator is unchanged. *)
Theorem compare_moves_not_started
    (fen_str : string) (p : Position) (moves : list string)
    (depth : option Z) (w : World) :
  Board_of_fen fen_str = inr p ->
  self_engine (self w) = None ->
  if existsb (legal_candidate p) moves then
    compare_moves fen_str moves depth w = (Py.Raise not_started, w)
  else
    exists results,
      compare_moves fen_str moves depth w = (Py.Ok results, w) /\
      dom results = list_to_set moves.
Proof.
  intros Hfen Hnone. unfold compare_moves, compare_moves_locals. rewrite Hfen.
  pose proof (compare_loop_not_started depth moves (Board_new p) ∅ w Hnone) as H.
  simpl position in H.
  destruct (existsb (legal_candidate p) moves).
  - rewrite H. reflexivity.
  - destruct H as (results & -> & Hdom). exists results.
    split; [reflexivity|]. rewrite Hdom. set_solver.
Qed.


(** X6. An evaluator built by [__init__] and entered: when the engine
    launches, [__enter__] succeeds and an evaluation without limits asks
    the launched engine at the depth given to [__init__]. *)
Theorem entered_evaluator_uses_its_depth
    (engine_path : string) (depth : Z) (printed : list string)
    (eng : Engine) (fen_str : string) (p : Position) :
  popen_uci engine_path = Some eng ->
  Board_of_fen fen_str = inr p ->
  exists w',
    __enter__ {| self := __init__ engine_path depth; stdout := printed |} =
      (Py.Ok tt, w') /\
    self_engine (self w') = Some eng /\
    evaluate_position fen_str None None w' =
      evaluated_with (Limit_depth depth) fen_str p eng w' /\
    evaluate_position fen_str (Some 0) None w' =
      evaluated_with (Limit_depth depth) fen_str p eng w'.
Proof.
  intros Hopen Hfen. unfold __enter__. simpl. rewrite Hopen.
  eexists. split; [reflexivity|]. split; [reflexivity|].
  split; apply evaluate_position_started; auto.
Qed.

(** X7. Leaving the [with] block does not un-start the evaluator:
    [__exit__] tells the engine to quit and leaves [self.engine] set, so a
    later [evaluate_position] does not raise "Engine not started" but
    sends its request to the engine that was told to quit.  On an
    evaluator that was never started [__exit__] does nothing. *)
Theorem exit_keeps_engine_set `{!EngineShutdown E}
    (w : World) (fen_str : string) (depth : option Z)
    (time_limit : option Py.num) :
  match self_engine (self w) with
  | Some eng =>
      self_engine (self (__exit__ w)) = Some (quit eng) /\
      fst (evaluate_position fen_str depth time_limit (__exit__ w)) <>
        Py.Raise not_started
  | None => __exit__ w = w
  end.
Proof.
  unfold __exit__. destruct (self_engine (self w)) as [eng|] eqn:Heng.
  - split; [reflexivity|].
    unfold evaluate_position. simpl.
    destruct (Board_of_fen fen_str); [discriminate|].
    simpl. destruct (analyse _ _ _). discriminate.
  - reflexivity.
Qed.

End LifeCycle.

(** ** The shape of an evaluation *)

Section EvaluationShape.

Context {R : Rules} {E : EngineModel R}.

(** X8. The three score keys of a result go together.  Without a score
    from the engine none of ['score'], ['mate'], ['evaluation_text'] is
    set.  With a score all three are set, exactly one of ['score'] and
    ['mate'] holds an int, and the text is computed from that stored
    value: [_format_evaluation] of the score, or "Mate in |n|" naming
    white when the stored mate count [n] is positive and black otherwise
    (zero included). *)
Theorem evaluation_score_keys
    (fen_str : string) (board : Board) (info : Info Move) :
  let evaluation := evaluation_of_info fen_str board info in
  match info_score info with
  | None =>
      result_score evaluation = None /\
      result_mate evaluation = None /\
      result_evaluation_text evaluation = None
  | Some _ =>
      (exists cp,
          result_score evaluation = Some (Some cp) /\
          result_mate evaluation = Some None /\
          result_evaluation_text evaluation = Some (_format_evaluation cp)) \/
      (exists n,
          result_score evaluation = Some None /\
          result_mate evaluation = Some (Some n) /\
          result_evaluation_text evaluation = Some (mate_text n))
  end.
Proof.
  unfold evaluation_of_info. cbv zeta.
  destruct (info_score info) as [score|].
  - destruct (to_white_perspective (turn (position board)) score) as [cp|n|];
      simpl; destruct (info_pv info) as [[|first rest]|]; simpl; eauto 10.
  - destruct (info_pv info) as [[|first rest]|]; simpl; auto.
Qed.

(** X9. The three line keys of a result go together: ['best_move'],
    ['pv'] and ['pv_san'] are set exactly when the engine gave a
    non-empty line, ['pv'] is then that whole line and is never empty, and
    ['best_move'] is its first entry. *)
Theorem evaluation_line_keys
    (fen_str : string) (board : Board) (info : Info Move) :
  let evaluation := evaluation_of_info fen_str board info in
  result_best_move evaluation = result_pv evaluation ≫= head /\
  (is_Some (result_pv evaluation) <-> is_Some (result_pv_san evaluation)) /\
  (is_Some (result_pv evaluation) <-> is_Some (result_best_move evaluation)) /\
  result_pv evaluation <> Some [] /\
  result_pv evaluation =
    match info_pv info with
    | Some [] | None => None
    | Some pv => Some (map uci pv)
    end.
Proof.
  unfold evaluation_of_info. cbv zeta.
  assert (Hiff : forall A B (a : A) (b : B), is_Some (Some a) <-> is_Some (Some b))
    by (split; eauto).
  assert (Hnone : forall A B, is_Some (@None A) <-> is_Some (@None B)).
  { intros A B. split; intros [x Hx]; discriminate Hx. }
  destruct (info_pv info) as [[|first rest]|];
    repeat case_match; simpl; repeat split; try discriminate;
    first [apply Hiff | apply Hnone].
Qed.

Lemma pv_san_loop_renderings moves board pv_san :
  exists rendered,
    pv_san_loop moves board pv_san = pv_san ++ rendered /\
    Some <$> rendered `prefix_of` renderings (position board) moves.
Proof.
  revert board pv_san.
  induction moves as [|m rest IH]; intros board pv_san; simpl.
  - exists []. rewrite app_nil_r. split; [reflexivity | apply prefix_nil].
  - destruct (san (position board) m) as [s|].
    + destruct (IH (Board_push board m) (pv_san ++ [s])) as (rendered & -> & Hpre).
      exists (s :: rendered). rewrite <- app_assoc. split; [reflexivity|].
      simpl. apply prefix_cons. exact Hpre.
    + exists []. rewrite app_nil_r. split; [reflexivity | apply prefix_nil].
Qed.

Lemma evaluation_pv_san fen_str board info :
  result_pv_san (evaluation_of_info fen_str board info) =
  match info_pv info with
  | Some [] | None => None
  | Some pv => Some (pv_san_loop (take 10 pv) board [])
  end.
Proof. unfold evaluation_of_info. repeat case_match; reflexivity. Qed.

(** X10. What ['pv_san'] holds: its entries are, in order, the renderings
    of the engine's moves, each in the position the moves before it lead
    to from the analysed position. *)
Theorem pv_san_entries
    (fen_str : string) (board : Board) (info : Info Move)
    (pv : list Move) (algebraic : list string) :
  info_pv info = Some pv ->
  result_pv_san (evaluation_of_info fen_str board info) = Some algebraic ->
  Some <$> algebraic `prefix_of` renderings (position board) pv.
Proof.
  intros Hpv. rewrite evaluation_pv_san, Hpv.
  destruct pv as [|first rest]; [discriminate|].
  intros Heq. apply (inj Some) in Heq. subst algebraic.
  destruct (pv_san_loop_renderings (take 10 (first :: rest)) board [])
    as (rendered & Hloop & Hpre).
  rewrite Hloop. simpl app. etrans; [exact Hpre|].
  clear. generalize (position board) as p. generalize (first :: rest) as pv.
  intros pv. generalize 10%nat as n. induction pv as [|m pv IH]; intros n p.
  - rewrite take_nil. reflexivity.
  - destruct n as [|n]; simpl; [apply prefix_nil|].
    apply prefix_cons, IH.
Qed.

(** X11. [find_best_move] on a started evaluator and a descriptor that
    parses: it returns the first move of the engine's line in long
    notation, and [None] when the engine gives no line or an empty one.
    The limit of the request is resolved as in [evaluate_position]. *)
Theorem find_best_move_first_of_line
    (fen_str : string) (p : Position) (depth : option Z)
    (time_limit : option Py.num) (w : World) (eng : Engine) :
  self_engine (self w) = Some eng ->
  Board_of_fen fen_str = inr p ->
  let answer := analyse eng p (analysis_limit (self w) depth time_limit) in
  find_best_move fen_str depth time_limit w =
    (Py.Ok (uci <$> (info_pv (fst answer) ≫= head)), with_engine w (snd answer)).
Proof.
  intros Heng Hfen answer. unfold find_best_move.
  rewrite (evaluate_position_started _ _ _ _ _ _ Heng Hfen).
  unfold evaluated_with. fold answer. f_equal. f_equal.
  destruct (evaluation_line_keys fen_str (Board_new p) (fst answer))
    as (-> & _ & _ & _ & ->).
  destruct (info_pv (fst answer)) as [[|first rest]|]; reflexivity.
Qed.

End EvaluationShape.

(** ** More on the sequence evaluator and the comparator *)

Section SequenceAndComparator.

Context {R : Rules} {E : EngineModel R} `{!RulesLaws R}.

Lemma stdout_with_engine (w : World) (eng : Engine) :
  stdout (with_engine w eng) = stdout w.
Proof. reflexivity. Qed.

Lemma sequence_loop_report depth moves board evaluations w eng :
  self_engine (self w) = Some eng ->
  exists more w',
    sequence_loop depth moves board evaluations w =
      (Py.Ok (evaluations ++ more), w') /\
    map result_fen more = map fen (replayed (position board) moves) /\
    match first_failing_move (position board) moves with
    | None => stdout w' = stdout w
    | Some k =>
        exists move_uci msg,
          moves !! k = Some move_uci /\
          stdout w' = stdout w ++ [error_line move_uci msg] /\
          (from_uci move_uci = inl msg \/
           msg = "Illegal move: " +:+ move_uci /\
           exists move, from_uci move_uci = inr move)
    end.
Proof.
  revert board evaluations w eng.
  induction moves as [|move_uci rest IH]; intros board evaluations w eng Heng; simpl.
  - exists [], w. rewrite app_nil_r. auto.
  - destruct (from_uci move_uci) as [msg|move] eqn:Hparse.
    { eexists [], _. rewrite app_nil_r.
      split; [reflexivity|]. split; [reflexivity|].
      exists move_uci, msg. auto. }
    destruct (is_legal (position board) move) eqn:Hlegal; simpl.
    2:{ eexists [], _. rewrite app_nil_r.
        split; [reflexivity|]. split; [reflexivity|].
        exists move_uci, ("Illegal move: " +:+ move_uci). eauto 10. }
    pose proof (evaluate_position_started (fen (push (position board) move))
                  depth None w eng _ Heng (fen_roundtrip _)) as Heval.
    unfold evaluated_with in Heval. rewrite Heval.
    destruct (IH (Board_push board move)
                 (evaluations ++
                  [evaluation_of_info (fen (push (position board) move))
                     (Board_new (push (position board) move))
                     (fst (analyse eng (push (position board) move)
                             (analysis_limit (self w) depth None)))])
                 (with_engine w (snd (analyse eng (push (position board) move)
                                        (analysis_limit (self w) depth None))))
                 _ eq_refl)
      as (more & w' & -> & Hfens & Hout).
    eexists (_ :: more), w'. rewrite <- app_assoc. simpl.
    split; [reflexivity|]. split.
    + rewrite evaluation_of_info_fen. f_equal. exact Hfens.
    + simpl in Hout.
      destruct (first_failing_move (push (position board) move) rest); exact Hout.
Qed.

(** X12. With the engine started and a starting position [p] that
    parses, the evaluations returned are, in order, those of [p] and of
    the positions reached by the moves played one after the other, up to
    the first move that does not parse or is not legal: the descriptors in
    the results are the descriptors of exactly these positions. *)
Theorem evaluate_moves_sequence_positions
    (moves : list string) (starting_fen : option string) (depth : option Z)
    (w : World) (eng : Engine) (p : Position) :
  self_engine (self w) = Some eng ->
  starting_board starting_fen = inr p ->
  exists evaluations w',
    evaluate_moves_sequence moves starting_fen depth w = (Py.Ok evaluations, w') /\
    map result_fen evaluations = map fen (p :: replayed p moves).
Proof.
  intros Heng Hstart. unfold evaluate_moves_sequence. rewrite Hstart. simpl.
  pose proof (evaluate_position_started (fen p) depth None w eng _ Heng
                (fen_roundtrip _)) as Heval.
  unfold evaluated_with in Heval. rewrite Heval.
  destruct (sequence_loop_report depth moves (Board_new p)
              [evaluation_of_info (fen p) (Board_new p)
                 (fst (analyse eng p (analysis_limit (self w) depth None)))]
              (with_engine w (snd (analyse eng p (analysis_limit (self w) depth None))))
              _ eq_refl)
    as (more & w' & -> & Hfens & _).
  eexists _, w'. split; [reflexivity|].
  simpl. rewrite evaluation_of_info_fen. f_equal. exact Hfens.
Qed.

(** X13. What [evaluate_moves_sequence] prints, with the engine started
    and a starting position that parses: nothing when every move is
    played, and otherwise one line, "Error processing move <move>: <why>",
    for the first move that does not parse or is not legal, where <why> is
    the parser's message or "Illegal move: <move>". *)
Theorem evaluate_moves_sequence_report
    (moves : list string) (starting_fen : option string) (depth : option Z)
    (w : World) (eng : Engine) (p : Position) :
  self_engine (self w) = Some eng ->
  starting_board starting_fen = inr p ->
  match first_failing_move p moves with
  | None =>
      stdout (snd (evaluate_moves_sequence moves starting_fen depth w)) = stdout w
  | Some k =>
      exists move_uci msg,
        moves !! k = Some move_uci /\
        stdout (snd (evaluate_moves_sequence moves starting_fen depth w)) =
          stdout w ++ [error_line move_uci msg] /\
        (from_uci move_uci = inl msg \/
         msg = "Illegal move: " +:+ move_uci /\
         exists move, from_uci move_uci = inr move)
  end.
Proof.
  intros Heng Hstart. unfold evaluate_moves_sequence. rewrite Hstart. simpl.
  pose proof (evaluate_position_started (fen p) depth None w eng _ Heng
                (fen_roundtrip _)) as Heval.
  unfold evaluated_with in Heval. rewrite Heval.
  destruct (sequence_loop_report depth moves (Board_new p)
              [evaluation_of_info (fen p) (Board_new p)
                 (fst (analyse eng p (analysis_limit (self w) depth None)))]
              (with_engine w (snd (analyse eng p (analysis_limit (self w) depth None))))
              _ eq_refl)
    as (more & w' & -> & _ & Hout).
  simpl in *. destruct (first_failing_move p moves); exact Hout.
Qed.

Lemma sequence_loop_extend depth moves more_moves board evaluations w eng :
  self_engine (self w) = Some eng ->
  exists shorter w1 longer w2,
    sequence_loop depth moves board evaluations w = (Py.Ok shorter, w1) /\
    sequence_loop depth (moves ++ more_moves) board evaluations w =
      (Py.Ok longer, w2) /\
    shorter `prefix_of` longer.
Proof.
  revert board evaluations w eng.
  induction moves as [|move_uci rest IH]; intros board evaluations w eng Heng.
  - destruct (sequence_loop_length depth more_moves board evaluations w eng Heng)
      as (more & w' & Hloop & _).
    exists evaluations, w, (evaluations ++ more), w'.
    split; [reflexivity|]. split; [exact Hloop | apply prefix_app_r; reflexivity].
  - simpl.
    destruct (from_uci move_uci) as [msg|move]; [eauto 10|].
    destruct (is_legal (position board) move); simpl; [|eauto 10].
    destruct (evaluate_position_fen (push (position board) move) depth None w eng Heng)
      as (evaluation & eng' & ->).
    apply (IH _ _ _ eng'). reflexivity.
Qed.

(** X14. Adding moves at the end of the list only adds evaluations at the
    end of the result: with the engine started and a starting position
    that parses, the evaluations of [moves] are a prefix of the
    evaluations of [moves ++ more_moves]. *)
Theorem evaluate_moves_sequence_extend
    (moves more_moves : list string) (starting_fen : option string)
    (depth : option Z) (w : World) (eng : Engine) (p : Position) :
  self_engine (self w) = Some eng ->
  starting_board starting_fen = inr p ->
  exists shorter w1 longer w2,
    evaluate_moves_sequence moves starting_fen depth w = (Py.Ok shorter, w1) /\
    evaluate_moves_sequence (moves ++ more_moves) starting_fen depth w =
      (Py.Ok longer, w2) /\
    shorter `prefix_of` longer.
Proof.
  intros Heng Hstart. unfold evaluate_moves_sequence. rewrite Hstart. simpl.
  destruct (evaluate_position_fen p depth None w eng Heng)
    as (evaluation & eng' & ->).
  apply (sequence_loop_extend _ _ _ _ _ _ eng'). reflexivity.
Qed.

Lemma compare_loop_dom depth moves board results w board' results' w' :
  compare_loop depth moves board results w = (Py.Ok (board', results'), w') ->
  dom results' = dom results ∪ list_to_set moves.
Proof.
  revert results w.
  induction moves as [|move_uci rest IH]; intros results w.
  - intros [= _ <- _]. set_solver.
  - rewrite compare_loop_step.
    assert (Hins : forall entry w'',
               compare_loop depth rest board (<[move_uci := entry]> results) w'' =
                 (Py.Ok (board', results'), w') ->
               dom results' = dom results ∪ list_to_set (move_uci :: rest)).
    { intros entry w'' Hloop. rewrite (IH _ _ Hloop), dom_insert_L. set_solver. }
    destruct (from_uci move_uci) as [msg|move]; [apply Hins|].
    destruct (is_legal (position board) move); [|apply Hins].
    destruct (self_engine (self w)); [|discriminate].
    destruct (evaluate_position _ depth None w) as [[evaluation|err] w''];
      [apply Hins | discriminate].
Qed.

(** X15. When [compare_moves] returns, the keys of its result are exactly
    the candidate strings: every candidate has an entry, a candidate
    listed several times has one, and there is no other key. *)
Theorem compare_moves_keys
    (fen_str : string) (moves : list string) (depth : option Z)
    (w w' : World) (results : gmap string Entry) :
  compare_moves fen_str moves depth w = (Py.Ok results, w') ->
  dom results = list_to_set moves.
Proof.
  unfold compare_moves, compare_moves_locals.
  destruct (Board_of_fen fen_str) as [msg|p]; [discriminate|].
  destruct (compare_loop depth moves (Board_new p) ∅ w)
    as [[[board' results']|err] w''] eqn:Hloop; [|discriminate].
  intros [= <- <-]. rewrite (compare_loop_dom _ _ _ _ _ _ _ _ Hloop).
  set_solver.
Qed.

Lemma compare_loop_evaluated depth moves board results w board' results' w'
    (candidate : string) (move : Move) :
  compare_loop depth moves board results w = (Py.Ok (board', results'), w') ->
  candidate ∈ moves ->
  from_uci candidate = inr move ->
  is_legal (position board) move = true ->
  exists info,
    results' !! candidate =
      Some (Evaluated (flip_score
              (evaluation_of_info (fen (push (position board) move))
                 (Board_new (push (position board) move)) info))).
Proof.
  intros Hloop Hin Hmove Hlegal. revert results w Hloop Hin.
  induction moves as [|move_uci rest IH]; intros results w Hloop Hin.
  - apply elem_of_nil in Hin. contradiction.
  - rewrite compare_loop_step in Hloop.
    destruct (decide (candidate ∈ rest)) as [Hrest|Hrest].
    + destruct (from_uci move_uci) as [msg|move']; [eapply IH; eassumption|].
      destruct (is_legal (position board) move'); [|eapply IH; eassumption].
      destruct (self_engine (self w)); [|discriminate].
      destruct (evaluate_position _ depth None w) as [[evaluation|err] w''];
        [eapply IH; eassumption | discriminate].
    + apply elem_of_cons in Hin as [->|Hin]; [|contradiction].
      rewrite Hmove, Hlegal in Hloop.
      destruct (self_engine (self w)) as [eng|] eqn:Heng; [|discriminate].
      rewrite (evaluate_position_started _ _ _ _ _ _ Heng (fen_roundtrip _)) in Hloop.
      unfold evaluated_with in Hloop.
      rewrite (compare_loop_other_key _ _ _ _ _ _ _ _ _ Hrest Hloop).
      rewrite lookup_insert_eq. eauto.
Qed.

(** X16. The entry of a legal candidate, when [compare_moves] returns: it
    is an evaluation whose descriptor is that of the position after the
    move.  Only the score and the mate count were negated; the text was
    not recomputed, so it is the text of the opposite of the reported
    value: [_format_evaluation (- score)] for a reported score, and the
    mate text of [- mate] for a reported mate count. *)
Theorem compare_moves_legal_entry
    (fen_str : string) (p : Position) (moves : list string) (depth : option Z)
    (w w' : World) (results : gmap string Entry)
    (candidate : string) (move : Move) :
  Board_of_fen fen_str = inr p ->
  compare_moves fen_str moves depth w = (Py.Ok results, w') ->
  candidate ∈ moves ->
  from_uci candidate = inr move ->
  is_legal p move = true ->
  exists evaluation,
    results !! candidate = Some (Evaluated evaluation) /\
    result_fen evaluation = fen (push p move) /\
    (forall score, get (result_score evaluation) = Some score ->
       result_evaluation_text evaluation = Some (_format_evaluation (- score))) /\
    (forall mate, get (result_mate evaluation) = Some mate ->
       result_evaluation_text evaluation = Some (mate_text (- mate))).
Proof.
  intros Hfen Hcall Hin Hmove Hlegal.
  unfold compare_moves, compare_moves_locals in Hcall. rewrite Hfen in Hcall.
  destruct (compare_loop depth moves (Board_new p) ∅ w)
    as [[[board' results']|err] w''] eqn:Hloop; [|discriminate].
  injection Hcall as <- <-.
  destruct (compare_loop_evaluated _ _ _ _ _ _ _ _ _ _ Hloop Hin Hmove Hlegal)
    as (info & Hentry).
  simpl position in Hentry. eexists. split; [exact Hentry|].
  pose proof (evaluation_score_keys (fen (push p move))
                (Board_new (push p move)) info) as Hkeys.
  pose proof (evaluation_of_info_fen (fen (push p move))
                (Board_new (push p move)) info) as Hfen'.
  cbv zeta in Hkeys.
  destruct (evaluation_of_info _ _ info)
    as [f d mate score text best pv pv_san]; simpl in *.
  split; [exact Hfen'|].
  destruct (info_score info).
  - destruct Hkeys as [(cp & -> & -> & ->)|(n & -> & -> & ->)]; simpl;
      split; intros x [= <-]; rewrite Z.opp_involutive; reflexivity.
  - destruct Hkeys as (-> & -> & ->). simpl. split; intros x [=].
Qed.

End SequenceAndComparator.

Section SequenceLimit.

Context {R : Rules} {E : EngineModel R} `{!RulesLaws R}.

Lemma sequence_loop_depth_limit depth moves board evaluations w eng :
  self_engine (self w) = Some eng ->
  exists more w',
    sequence_loop depth moves board evaluations w =
      (Py.Ok (evaluations ++ more), w') /\
    Forall (fun evaluation =>
              exists eng' q,
                evaluation =
                  evaluation_of_info (fen q) (Board_new q)
                    (fst (analyse eng' q
                            (Limit_depth (Py.or_int depth (self_depth (self w)))))))
           more.
Proof.
  revert board evaluations w eng.
  induction moves as [|move_uci rest IH]; intros board evaluations w eng Heng; simpl.
  - exists [], w. rewrite app_nil_r. auto.
  - destruct (from_uci move_uci) as [msg|move].
    { eexists [], _. rewrite app_nil_r. eauto. }
    destruct (is_legal (position board) move); simpl.
    2:{ eexists [], _. rewrite app_nil_r. eauto. }
    pose proof (evaluate_position_started (fen (push (position board) move))
                  depth None w eng _ Heng (fen_roundtrip _)) as Heval.
    unfold evaluated_with in Heval. rewrite Heval.
    destruct (IH (Board_push board move)
                 (evaluations ++
                  [evaluation_of_info (fen (push (position board) move))
                     (Board_new (push (position board) move))
                     (fst (analyse eng (push (position board) move)
                             (analysis_limit (self w) depth None)))])
                 (with_engine w (snd (analyse eng (push (position board) move)
                                        (analysis_limit (self w) depth None))))
                 _ eq_refl)
      as (more & w' & -> & Hall).
    eexists (_ :: more), w'. rewrite <- app_assoc. simpl.
    split; [reflexivity|]. constructor; [|exact Hall].
    exists eng, (push (position board) move). reflexivity.
Qed.

(** X17. [evaluate_moves_sequence] never asks for a time limit: with the
    engine started and a starting position that parses, every evaluation
    it returns was built from the answer to a request at the depth limit
    [depth or self.depth], on the descriptor's own position. *)
Theorem evaluate_moves_sequence_depth_limit
    (moves : list string) (starting_fen : option string) (depth : option Z)
    (w : World) (eng : Engine) (p : Position) :
  self_engine (self w) = Some eng ->
  starting_board starting_fen = inr p ->
  exists evaluations w',
    evaluate_moves_sequence moves starting_fen depth w = (Py.Ok evaluations, w') /\
    Forall (fun evaluation =>
              exists eng' q,
                evaluation =
                  evaluation_of_info (fen q) (Board_new q)
                    (fst (analyse eng' q
                            (Limit_depth (Py.or_int depth (self_depth (self w)))))))
           evaluations.
Proof.
  intros Heng Hstart. unfold evaluate_moves_sequence. rewrite Hstart. simpl.
  pose proof (evaluate_position_started (fen p) depth None w eng _ Heng
                (fen_roundtrip _)) as Heval.
  unfold evaluated_with in Heval. rewrite Heval.
  destruct (sequence_loop_depth_limit depth moves (Board_new p)
              [evaluation_of_info (fen p) (Board_new p)
                 (fst (analyse eng p (analysis_limit (self w) depth None)))]
              (with_engine w (snd (analyse eng p (analysis_limit (self w) depth None))))
              _ eq_refl)
    as (more & w' & -> & Hall).
  eexists _, w'. split; [reflexivity|].
  simpl. constructor; [|exact Hall].
  exists eng, p. reflexivity.
Qed.

End SequenceLimit.

(** ** The code on the Ruy Lopez instance *)

Lemma ruy_lopez_laws : RulesLaws RuyLopez.rules.
Proof.
  split.
  - intros p. destruct p; vm_compute; reflexivity.
  - intros p m Hlegal. simpl in *. unfold RuyLopez.render. rewrite Hlegal.
    destruct p; try (eexists; reflexivity).
    vm_compute in Hlegal. discriminate Hlegal.
Qed.

#[export] Existing Instance ruy_lopez_laws.

Import RuyLopez.

(** C1. The stored score is not White-relative.  Whatever the side to
    move, the conversion hands back the engine's side-to-move value: with
    Black to move the double negation ([white()], then [-]) cancels, so
    the same raw value gives the same stored value for either side.
    After 1.e4 the engine reports -30 for Black, the side to move, that is
    +30 for White; the result stores -30, where the White-relative value
    is +30. *)
Theorem black_to_move_score_is_side_relative :
  (forall (side : Color) (raw : Score.t),
      to_white_perspective side (PovScore.Make raw side) = raw) /\
  to_white_perspective WHITE (PovScore.Make (Score.Cp 30) WHITE) = Score.Cp 30 /\
  to_white_perspective BLACK (PovScore.Make (Score.Cp 30) BLACK) = Score.Cp 30 /\
  turn P1 = BLACK /\
  info_score (fst (analyse 0%nat P1 (Limit_depth 15))) =
    Some (PovScore.Make (Score.Cp (-30)) BLACK) /\
  PovScore.white (PovScore.Make (Score.Cp (-30)) BLACK) = Score.Cp 30 /\
  exists evaluation,
    fst (evaluate_position (fen P1) None None started) = Py.Ok evaluation /\
    result_score evaluation = Some (Some (-30)).
Proof.
  split; [exact to_white_perspective_relative|].
  split; [reflexivity|]. split; [reflexivity|].
  split; [reflexivity|]. split; [reflexivity|]. split; [reflexivity|].
  eexists. split; vm_compute; reflexivity.
Qed.

(** C2, as specified, fails on a legal line of eleven moves: analysing the
    starting position, the engine's best line is the eleven plies of the
    Ruy Lopez, each legal in its replay state, and the algebraic list has
    ten entries. *)
Lemma pv_rendering_capped_at_ten :
  exists evaluation,
    fst (evaluate_position start_fen None None started) = Py.Ok evaluation /\
    info_pv (fst (analyse 0%nat P0 (Limit_depth 15))) = Some line /\
    first_illegal P0 line = None /\
    (length <$> result_pv_san evaluation) = Some 10%nat /\
    (length <$> result_pv evaluation) = Some 11%nat /\
    ~ pv_rendering_as_specified P0 line evaluation.
Proof.
  eexists. split; [vm_compute; reflexivity|].
  split; [reflexivity|]. split; [reflexivity|].
  split; [reflexivity|]. split; [reflexivity|].
  intros (long & algebraic & Hlong & Halg & _ & _ & Hiff).
  injection Hlong as <-. injection Halg as <-.
  destruct Hiff as [Hshorter _].
  destruct Hshorter as [k Hk]; [simpl; lia|].
  vm_compute in Hk. discriminate Hk.
Qed.

(** The line of the engine at the starting position, rendered. *)
Lemma pv_rendering_ruy_lopez :
  exists algebraic,
    result_pv (evaluation_of_info start_fen (Board_new P0)
                 (fst (analyse 0%nat P0 (Limit_depth 15)))) = Some (map uci line) /\
    result_pv_san (evaluation_of_info start_fen (Board_new P0)
                     (fst (analyse 0%nat P0 (Limit_depth 15)))) = Some algebraic /\
    (length algebraic <= length (map uci line))%nat /\
    length algebraic =
      match first_unrendered (position (Board_new P0)) (take 10 line) with
      | Some k => k
      | None => Nat.min 10 (length line)
      end /\
    ((length algebraic < length (map uci line))%nat <->
     is_Some (first_unrendered (position (Board_new P0)) (take 10 line))
     \/ (10 < length line)%nat) /\
    (first_illegal (position (Board_new P0)) (take 10 line) = None ->
     length algebraic = Nat.min 10 (length line)).
Proof.
  eapply (pv_rendering (R := rules)).
  - reflexivity.
  - discriminate.
Defined.

(** Three moves of the line, then a move that is not legal there. *)
Lemma evaluate_moves_sequence_ruy_lopez :
  exists first rest w',
    evaluate_moves_sequence ["e2e4"; "e7e5"; "g1f3"; "e2e4"; "b8c6"] None
      (Some 12) started = (Py.Ok (first :: rest), w') /\
    fst (evaluate_position (fen P0) (Some 12) None started) = Py.Ok first /\
    result_fen first = fen P0 /\
    length (first :: rest) = 4%nat.
Proof.
  eapply (evaluate_moves_sequence_length (R := rules)).
  - reflexivity.
  - reflexivity.
Defined.

(** A legal, an illegal and an unparseable candidate. *)
Lemma compare_moves_restores_board_ruy_lopez :
  match compare_moves_locals start_fen ["e2e4"; "e2e5"; "xyz"] (Some 12) started with
  | (Py.Ok (board, _), _) =>
      board = Board_new P0 /\ fen (position board) = fen P0
  | (Py.Raise e, _) =>
      self_engine (self started) = None /\
      e = Py.RuntimeError
            "Engine not started. Use 'with' statement or call start_engine()"
  end.
Proof.
  eapply (compare_moves_restores_board (R := rules)).
  reflexivity.
Defined.

(** The candidate e2e4 between an illegal and an unparseable one. *)
Lemma compare_moves_negates_ruy_lopez :
  exists evaluation w2 results w3,
    evaluate_position (fen (push P0 "e2e4")) (Some 12) None
      (snd (compare_moves start_fen ["e2e5"] (Some 12) started)) =
      (Py.Ok evaluation, w2) /\
    compare_moves start_fen (["e2e5"] ++ "e2e4" :: ["xyz"]) (Some 12) started =
      (Py.Ok results, w3) /\
    results !! "e2e4" = Some (Evaluated (flip_score evaluation)) /\
    get (result_score (flip_score evaluation)) =
      Z.opp <$> get (result_score evaluation) /\
    get (result_mate (flip_score evaluation)) =
      Z.opp <$> get (result_mate evaluation).
Proof.
  eapply (compare_moves_negates (R := rules)).
  - reflexivity.
  - reflexivity.
  - reflexivity.
  - reflexivity.
  - intros Hin. apply list_elem_of_singleton in Hin. discriminate Hin.
Defined.

(** A legal, an illegal and an unparseable candidate: the call returns,
    with the two markers. *)
Lemma compare_moves_error_markers_ruy_lopez :
  exists (results : gmap string Entry) (w' : World),
    compare_moves start_fen ["e2e4"; "e2e5"; "xyz"] (Some 12) started =
      (Py.Ok results, w') /\
    results !! "e2e5" = Some (Error "Illegal move") /\
    results !! "xyz" =
      Some (Error "expected uci string to be of length 4 or 5: 'xyz'").
Proof.
  pose proof (compare_moves_error_markers (R := rules) start_fen P0
                ["e2e4"; "e2e5"; "xyz"] (Some 12) started) as Hthm.
  assert (Hfen : Board_of_fen start_fen = inr P0) by reflexivity.
  destruct (Hthm Hfen) as [Hmarkers _].
  destruct (compare_moves_returns (R := rules) start_fen P0
              ["e2e4"; "e2e5"; "xyz"] (Some 12) started 0%nat Hfen eq_refl)
    as (results & w' & Hcall).
  exists results, w'. split; [exact Hcall|]. split.
  - apply (Hmarkers results w' Hcall "e2e5") with (move := "e2e5").
    + apply list_elem_of_In. simpl. auto.
    + reflexivity.
    + reflexivity.
  - apply (Hmarkers results w' Hcall "xyz").
    + apply list_elem_of_In. simpl. auto.
    + reflexivity.
Defined.

(** A fresh evaluator, never entered. *)
Lemma evaluate_position_engine_not_started_ruy_lopez :
  evaluate_position start_fen (Some 12) (Some (Py.Float 0.5%float)) fresh =
    (Py.Raise (Py.RuntimeError
       "Engine not started. Use 'with' statement or call start_engine()"), fresh)
  /\ self_engine (self (snd (evaluate_position start_fen (Some 12)
                               (Some (Py.Float 0.5%float)) fresh))) = None.
Proof.
  apply (evaluate_position_engine_not_started (R := rules) start_fen (Some 12)
           (Some (Py.Float 0.5%float)) fresh).
  reflexivity.
Defined.

(** Half a second together with a depth of 12: the request carries the
    half second. *)
Lemma analysis_limit_resolution_ruy_lopez :
  (analysis_limit (self started) (Some 12) (Some (Py.Float 0.5%float)) =
     Limit_time (Py.Float 0.5%float) /\
   evaluate_position start_fen (Some 12) (Some (Py.Float 0.5%float)) started =
     evaluated_with (Limit_time (Py.Float 0.5%float)) start_fen P0 0%nat started) /\
  (analysis_limit (self started) None None = Limit_depth 15 /\
   evaluate_position start_fen None None started =
     evaluated_with (Limit_depth 15) start_fen P0 0%nat started).
Proof.
  eapply (analysis_limit_resolution (R := rules)).
  - reflexivity.
  - reflexivity.
  - reflexivity.
Defined.

(** *** The rest of the evaluator on the same instance *)

(** A fresh evaluator: no best move, no sequence. *)
Lemma not_started_calls_raise_ruy_lopez :
  find_best_move start_fen (Some 12) None fresh = (Py.Raise not_started, fresh) /\
  evaluate_moves_sequence ["e2e4"; "e7e5"] None (Some 12) fresh =
    (Py.Raise not_started, fresh).
Proof.
  eapply (not_started_calls_raise (R := rules)).
  reflexivity.
Defined.

(** A fresh evaluator: candidates that are all illegal or unparseable get
    their entries; one legal candidate among them and the call raises. *)
Lemma compare_moves_not_started_ruy_lopez :
  (exists results : gmap string Entry,
      compare_moves start_fen ["e2e5"; "xyz"] (Some 12) fresh =
        (Py.Ok results, fresh) /\
      dom results = list_to_set ["e2e5"; "xyz"]) /\
  compare_moves start_fen ["e2e5"; "e2e4"; "xyz"] (Some 12) fresh =
    (Py.Raise not_started, fresh).
Proof.
  split.
  - eapply (compare_moves_not_started (R := rules) start_fen P0 ["e2e5"; "xyz"]).
    + reflexivity.
    + reflexivity.
  - eapply (compare_moves_not_started (R := rules) start_fen P0
              ["e2e5"; "e2e4"; "xyz"]).
    + reflexivity.
    + reflexivity.
Defined.


(** [ChessEngineEvaluator('stockfish', depth=15)], entered. *)
Lemma entered_evaluator_uses_its_depth_ruy_lopez :
  exists w' : World,
    __enter__ {| self := __init__ "stockfish" 15; stdout := [] |} = (Py.Ok tt, w') /\
    self_engine (self w') = self_engine (self started) /\
    evaluate_position start_fen None None w' =
      evaluated_with (Limit_depth 15) start_fen P0 (0%nat : @Engine rules engine) w' /\
    evaluate_position start_fen (Some 0) None w' =
      evaluated_with (Limit_depth 15) start_fen P0 (0%nat : @Engine rules engine) w'.
Proof.
  eapply (entered_evaluator_uses_its_depth (R := rules) (E := engine)
            "stockfish" 15 [] (0%nat : @Engine rules engine) start_fen (P0 : @Position rules)).
  - reflexivity.
  - reflexivity.
Defined.

(** The ten entries rendered for the line of the starting position. *)
Lemma pv_san_entries_ruy_lopez :
  Some <$> take 10 line_san `prefix_of` renderings P0 line.
Proof.
  eapply (pv_san_entries (R := rules) start_fen (Board_new (R := rules) P0)
            (fst (analyse (0%nat : @Engine rules engine) P0 (Limit_depth 15)))).
  - reflexivity.
  - reflexivity.
Defined.

(** The best move at the starting position. *)
Lemma find_best_move_first_of_line_ruy_lopez :
  find_best_move start_fen None None started =
    (Py.Ok (Some "e2e4"), with_engine started 1%nat).
Proof.
  apply (find_best_move_first_of_line (R := rules) (E := engine) start_fen
           (P0 : @Position rules) None None started
           (0%nat : @Engine rules engine)).
  - reflexivity.
  - reflexivity.
Defined.

(** Three moves of the line, then a move that is not legal there: four
    positions are evaluated. *)
Lemma evaluate_moves_sequence_positions_ruy_lopez :
  exists (evaluations : list Evaluation) (w' : World),
    evaluate_moves_sequence ["e2e4"; "e7e5"; "g1f3"; "e2e4"; "b8c6"] None
      (Some 12) started = (Py.Ok evaluations, w') /\
    map result_fen evaluations = [fen P0; fen P1; fen P2; fen P3].
Proof.
  eapply (evaluate_moves_sequence_positions (R := rules)).
  - reflexivity.
  - reflexivity.
Defined.

(** The same call prints one line, for the fourth move. *)
Lemma evaluate_moves_sequence_report_ruy_lopez :
  exists move_uci msg : string,
    ["e2e4"; "e7e5"; "g1f3"; "e2e4"; "b8c6"] !! 3%nat = Some move_uci /\
    stdout (snd (evaluate_moves_sequence
                   ["e2e4"; "e7e5"; "g1f3"; "e2e4"; "b8c6"] None (Some 12) started)) =
      stdout started ++ [error_line move_uci msg] /\
    (from_uci move_uci = inl msg \/
     msg = "Illegal move: " +:+ move_uci /\
     exists move, from_uci move_uci = inr move).
Proof.
  eapply (evaluate_moves_sequence_report (R := rules)
            ["e2e4"; "e7e5"; "g1f3"; "e2e4"; "b8c6"] None (Some 12) started 0%nat P0).
  - reflexivity.
  - reflexivity.
Defined.

(** One move, then one more. *)
Lemma evaluate_moves_sequence_extend_ruy_lopez :
  exists (shorter : list Evaluation) (w1 : World)
         (longer : list Evaluation) (w2 : World),
    evaluate_moves_sequence ["e2e4"] None (Some 12) started = (Py.Ok shorter, w1) /\
    evaluate_moves_sequence (["e2e4"] ++ ["e7e5"]) None (Some 12) started =
      (Py.Ok longer, w2) /\
    shorter `prefix_of` longer.
Proof.
  eapply (evaluate_moves_sequence_extend (R := rules)).
  - reflexivity.
  - reflexivity.
Defined.

(** A candidate listed twice has one key. *)
Lemma compare_moves_keys_ruy_lopez :
  exists (results : gmap string Entry) (w' : World),
    compare_moves start_fen ["e2e4"; "e2e5"; "e2e4"; "xyz"] (Some 12) started =
      (Py.Ok results, w') /\
    dom results = list_to_set ["e2e4"; "e2e5"; "e2e4"; "xyz"].
Proof.
  destruct (compare_moves_returns (R := rules) start_fen P0
              ["e2e4"; "e2e5"; "e2e4"; "xyz"] (Some 12) started 0%nat eq_refl eq_refl)
    as (results & w' & Hcall).
  exists results, w'. split; [exact Hcall|].
  exact (compare_moves_keys (R := rules) _ _ _ _ _ _ Hcall).
Defined.

(** The entry of e2e4 among three candidates. *)
Lemma compare_moves_legal_entry_ruy_lopez :
  exists (results : gmap string Entry) (w' : World) (evaluation : Evaluation),
    compare_moves start_fen ["e2e4"; "e2e5"; "xyz"] (Some 12) started =
      (Py.Ok results, w') /\
    results !! "e2e4" = Some (Evaluated evaluation) /\
    result_fen evaluation = fen P1 /\
    (forall score, get (result_score evaluation) = Some score ->
       result_evaluation_text evaluation = Some (_format_evaluation (- score))) /\
    (forall mate, get (result_mate evaluation) = Some mate ->
       result_evaluation_text evaluation = Some (mate_text (- mate))).
Proof.
  destruct (compare_moves_returns (R := rules) start_fen P0
              ["e2e4"; "e2e5"; "xyz"] (Some 12) started 0%nat eq_refl eq_refl)
    as (results & w' & Hcall).
  assert (Hin : "e2e4" ∈ ["e2e4"; "e2e5"; "xyz"])
    by (apply list_elem_of_In; simpl; auto).
  destruct (compare_moves_legal_entry (R := rules) start_fen P0
              ["e2e4"; "e2e5"; "xyz"] (Some 12) started w' results
              "e2e4" "e2e4" eq_refl Hcall Hin eq_refl eq_refl)
    as (evaluation & Hentry).
  exists results, w', evaluation. split; [exact Hcall | exact Hentry].
Defined.

(** Two moves at depth 12: three requests at depth 12. *)
Lemma evaluate_moves_sequence_depth_limit_ruy_lopez :
  exists (evaluations : list Evaluation) (w' : World),
    evaluate_moves_sequence ["e2e4"; "e7e5"] None (Some 12) started =
      (Py.Ok evaluations, w') /\
    Forall (fun evaluation =>
              exists eng' q,
                evaluation =
                  evaluation_of_info (fen q) (Board_new q)
                    (fst (analyse eng' q (Limit_depth 12))))
           evaluations.
Proof.
  eapply (evaluate_moves_sequence_depth_limit (R := rules)).
  - reflexivity.
  - reflexivity.
Defined.
